(** * paddle.vision.datasets.folder: a shallow embedding

    The development follows [python/paddle/vision/datasets/folder.py]:
    the extension filter [has_valid_extension], the labelled walk
    [make_dataset], and the two dataset classes [DatasetFolder] and
    [ImageFolder].

    Conventions of the embedding.
    - A Python [str] is a [string]; its characters are the code points
      0..255, compared by code point as Python compares strings.
    - A tuple or list of strings is a [list string]; a [dict] from class
      names to indices is a [gmap string nat].
    - A call that may raise returns a [result]; the loops of the source
      that append to a list thread that list through [for_each].
    - The operating system ([os.scandir], [os.listdir], [os.path.isdir],
      [os.walk], [os.path.expanduser], [cv2.imread]) is a record [OS] that
      every function takes as its first argument. *)

From Stdlib Require Import ZArith Ascii String List Sorting.Sorted.
From stdpp Require Import base list sorting strings gmap.

Local Open Scope string_scope.
Local Open Scope list_scope.
Local Open Scope stdpp_scope.

(** ** Python values and exceptions *)

Module Py.

(** The exceptions the module can raise or let through. [Raised] stands
    for whatever a caller-supplied callable raises. *)
Inductive exn : Type :=
| IndexError
| KeyError (key : string)
| TypeError
| OSError (path : string)
| RuntimeError (msg : string)
| Raised (what : string).

Inductive result (A : Type) : Type :=
| Ok (a : A)
| Raise (e : exn).
Arguments Ok {A} a.
Arguments Raise {A} e.

#[global] Instance result_ret : MRet result := fun _ a => Ok a.
#[global] Instance result_bind : MBind result := fun _ _ f m =>
  match m with
  | Ok a => f a
  | Raise e => Raise e
  end.

(** [for x in xs: body], where the body updates the state [s]. *)
Fixpoint for_each {A S : Type} (xs : list A) (body : S -> A -> result S)
    (s : S) : result S :=
  match xs with
  | [] => Ok s
  | x :: xs' => s' ← body s x; for_each xs' body s'
  end.

(** Calling a value that may be [None]. *)
Definition call {A B : Type} (f : option (A -> result B)) (x : A) : result B :=
  match f with
  | Some g => g x
  | None => Raise TypeError
  end.

(** *** Strings *)

(** [str.lower] on a code point below 256: the upper-case letters are
    A..Z and U+00C0..U+00DE without the multiplication sign U+00D7. *)
Definition lower_char (c : ascii) : ascii :=
  let n := N_of_ascii c in
  if ((65 <=? n) && (n <=? 90))%N
     || ((192 <=? n) && (n <=? 222) && negb (n =? 215))%N
  then ascii_of_N (n + 32)
  else c.

Fixpoint lower (s : string) : string :=
  match s with
  | EmptyString => EmptyString
  | String c s' => String (lower_char c) (lower s')
  end.

(** [s.endswith(e)] for one suffix [e]. *)
Definition str_endswith (s e : string) : bool :=
  let n := String.length s in
  let m := String.length e in
  if (m <=? n)%nat then String.eqb (substring (n - m) m s) e else false.

(** [s.endswith(suffixes)] for a tuple of suffixes. *)
Definition endswith (s : string) (suffixes : list string) : bool :=
  existsb (str_endswith s) suffixes.

(** [s.startswith(p)]. *)
Definition startswith (s p : string) : bool := String.prefix p s.

(** [sep.join(parts)]. *)
Definition str_join (sep : string) (parts : list string) : string :=
  String.concat sep parts.

(** *** Ordering: the [<] of strings, lists and tuples *)

Class Cmp (A : Type) := cmp : A -> A -> comparison.

#[global] Instance cmp_char : Cmp ascii := Ascii.compare.
#[global] Instance cmp_list {A} `{Cmp A} : Cmp (list A) := list_compare cmp.
#[global] Instance cmp_str : Cmp string := fun s t =>
  cmp (list_ascii_of_string s) (list_ascii_of_string t).
#[global] Instance cmp_tuple {A B} `{Cmp A, Cmp B} : Cmp (A * B) := fun p q =>
  match cmp (fst p) (fst q) with
  | Eq => cmp (snd p) (snd q)
  | c => c
  end.

Definition py_le {A} `{Cmp A} (x y : A) : Prop := cmp x y <> Gt.
Definition py_lt {A} `{Cmp A} (x y : A) : Prop := cmp x y = Lt.
Definition py_ltb {A} `{Cmp A} (x y : A) : bool :=
  match cmp x y with Lt => true | _ => false end.

(** [sorted(xs)]: the sort is stable and uses [<] only. An element is
    put behind the elements it is not smaller than. *)
Fixpoint insort {A} `{Cmp A} (x : A) (l : list A) : list A :=
  match l with
  | [] => [x]
  | y :: l' => if py_ltb y x then y :: insort x l' else x :: l
  end.

Definition sorted {A} `{Cmp A} (xs : list A) : list A :=
  foldr insort [] xs.

(** *** Lists *)

(** [l[i]] for an integer [i]: a negative index counts from the end. *)
Definition getitem {A} (l : list A) (i : Z) : result A :=
  let n := Z.of_nat (length l) in
  let i := if (i <? 0)%Z then (i + n)%Z else i in
  if ((i <? 0) || (n <=? i))%Z then Raise IndexError
  else match l !! Z.to_nat i with
       | Some x => Ok x
       | None => Raise IndexError
       end.

(** [d[k]] for a dict. *)
Definition dict_getitem (d : gmap string nat) (k : string) : result nat :=
  match d !! k with
  | Some v => Ok v
  | None => Raise (KeyError k)
  end.

(** [d.keys()], in some order. *)
Definition keys (d : gmap string nat) : list string :=
  (map_to_list d).*1.

End Py.
Export Py.

(** ** os.path *)

Module posixpath.

(** [os.path.join(a, b)] on a POSIX system. *)
Definition join (a b : string) : string :=
  if startswith b "/" then b
  else if String.eqb a "" || str_endswith a "/" then a +:+ b
  else a +:+ "/" +:+ b.

End posixpath.

(** ** The operating system *)

(** What the module asks of the interpreter, of [os] and of [cv2].
    - [version_ge_35] is [sys.version_info >= (3, 5)];
    - [scandir d] lists the entries of [d] as (name, [is_dir()]) pairs and
      [listdir d] lists their names, both in the order the system gives;
    - [walk top] is the finished [os.walk(top, followlinks=True)], a list
      of (root, dirs, files) tuples. A tree with a cycle of symbolic links
      has no finished walk and is outside the model. *)
Record OS (Sample : Type) : Type := {
  version_ge_35 : bool;
  scandir : string -> result (list (string * bool));
  listdir : string -> result (list string);
  isdir : string -> bool;
  walk : string -> list (string * list string * list string);
  expanduser : string -> string;
  imread : string -> result Sample
}.
Arguments version_ge_35 {Sample} _.
Arguments scandir {Sample} _ _.
Arguments listdir {Sample} _ _.
Arguments isdir {Sample} _ _.
Arguments walk {Sample} _ _.
Arguments expanduser {Sample} _ _.
Arguments imread {Sample} _ _.

(** ** folder.py *)

Definition has_valid_extension (filename : string) (extensions : list string) : bool :=
  endswith (lower filename) extensions.

Definition make_dataset {Sample} (os : OS Sample) (dir : string)
    (class_to_idx : gmap string nat) (extensions : option (list string))
    (is_valid_file : option (string -> result bool))
    : result (list (string * nat)) :=
  let images := [] in
  let dir := expanduser os dir in
  let is_valid_file :=
    match extensions with
    | Some exts => Some (fun x => Ok (has_valid_extension x exts))
    | None => is_valid_file
    end in
  for_each (sorted (keys class_to_idx)) (fun images target =>
    let d := posixpath.join dir target in
    if negb (isdir os d) then Ok images
    else
      for_each (sorted (walk os d)) (fun images '(root, _, fnames) =>
        for_each (sorted fnames) (fun images fname =>
          let path := posixpath.join root fname in
          valid ← call is_valid_file path;
          if valid : bool then
            idx ← dict_getitem class_to_idx target;
            Ok (images ++ [(path, idx)])
          else Ok images) images) images) images.

Definition IMG_EXTENSIONS : list string :=
  [".jpg"; ".jpeg"; ".png"; ".ppm"; ".bmp"; ".pgm"; ".tif"; ".tiff"; ".webp"].

Definition cv2_loader {Sample} (os : OS Sample) (path : string) : result Sample :=
  imread os path.

(** The message of the [RuntimeError] both constructors raise. *)
Definition found_0_files (root : string) (extensions : list string) : string :=
  "Found 0 files in subfolders of: " +:+ root +:+ String "010" ""
  +:+ "Supported extensions are: " +:+ str_join "," extensions.

Module DatasetFolder.

Record t (Sample : Type) : Type := {
  root : string;
  transform : option (Sample -> result Sample);
  loader : string -> result Sample;
  extensions : list string;
  classes : list string;
  class_to_idx : gmap string nat;
  samples : list (string * nat);
  targets : list nat
}.
Arguments root {Sample} _.
Arguments transform {Sample} _.
Arguments loader {Sample} _ _.
Arguments extensions {Sample} _.
Arguments classes {Sample} _.
Arguments class_to_idx {Sample} _.
Arguments samples {Sample} _.
Arguments targets {Sample} _.

(** [{classes[i]: i for i in range(len(classes))}] *)
Definition index_dict (classes : list string) : result (gmap string nat) :=
  for_each (seq 0 (length classes)) (fun d i =>
    c ← getitem classes (Z.of_nat i);
    Ok (<[c := i]> d)) ∅.

Definition _find_classes {Sample} (os : OS Sample) (dir : string)
    : result (list string * gmap string nat) :=
  classes ←
    (if version_ge_35 os then
       entries ← scandir os dir;
       Ok ((filter (fun d => snd d = true) entries).*1)
     else
       names ← listdir os dir;
       Ok (filter (fun d => isdir os (posixpath.join dir d) = true) names));
  let classes := sorted classes in
  class_to_idx ← index_dict classes;
  Ok (classes, class_to_idx).

Definition __init__ {Sample} (os : OS Sample) (root : string)
    (loader : option (string -> result Sample))
    (extensions : option (list string))
    (transform : option (Sample -> result Sample))
    (is_valid_file : option (string -> result bool)) : result (t Sample) :=
  let extensions :=
    match extensions with None => IMG_EXTENSIONS | Some e => e end in
  '(classes, class_to_idx) ← _find_classes os root;
  samples ← make_dataset os root class_to_idx (Some extensions) is_valid_file;
  if (length samples =? 0)%nat then
    Raise (RuntimeError (found_0_files root extensions))
  else
    Ok {| root := root;
          transform := transform;
          loader := match loader with None => cv2_loader os | Some l => l end;
          extensions := extensions;
          classes := classes;
          class_to_idx := class_to_idx;
          samples := samples;
          targets := map snd samples |}.

Definition __getitem__ {Sample} (self : t Sample) (index : Z)
    : result (Sample * nat) :=
  '(path, target) ← getitem (samples self) index;
  sample ← loader self path;
  sample ← match transform self with
           | Some f => f sample
           | None => Ok sample
           end;
  Ok (sample, target).

Definition __len__ {Sample} (self : t Sample) : nat :=
  length (samples self).

End DatasetFolder.

Module ImageFolder.

Record t (Sample : Type) : Type := {
  root : string;
  loader : string -> result Sample;
  extensions : list string;
  samples : list string;
  transform : option (Sample -> result Sample)
}.
Arguments root {Sample} _.
Arguments loader {Sample} _ _.
Arguments extensions {Sample} _.
Arguments samples {Sample} _.
Arguments transform {Sample} _.

Definition __init__ {Sample} (os : OS Sample) (root : string)
    (loader : option (string -> result Sample))
    (extensions : option (list string))
    (transform : option (Sample -> result Sample))
    (is_valid_file : option (string -> result bool)) : result (t Sample) :=
  let self_root := root in
  let extensions :=
    match extensions with None => IMG_EXTENSIONS | Some e => e end in
  let samples := [] in
  let path := expanduser os root in
  let is_valid_file :=
    match Some extensions with
    | Some exts => Some (fun x => Ok (has_valid_extension x exts))
    | None => is_valid_file
    end in
  samples ←
    for_each (sorted (walk os path)) (fun samples '(root, _, fnames) =>
      for_each (sorted fnames) (fun samples fname =>
        let f := posixpath.join root fname in
        valid ← call is_valid_file f;
        if valid : bool then Ok (samples ++ [f]) else Ok samples) samples)
      samples;
  if (length samples =? 0)%nat then
    Raise (RuntimeError (found_0_files self_root extensions))
  else
    Ok {| root := self_root;
          loader := match loader with None => cv2_loader os | Some l => l end;
          extensions := extensions;
          samples := samples;
          transform := transform |}.

Definition __getitem__ {Sample} (self : t Sample) (index : Z)
    : result (list Sample) :=
  path ← getitem (samples self) index;
  sample ← loader self path;
  sample ← match transform self with
           | Some f => f sample
           | None => Ok sample
           end;
  Ok [sample].

Definition __len__ {Sample} (self : t Sample) : nat :=
  length (samples self).

End ImageFolder.

(** ** A filesystem to run the code on *)

(** A directory tree, mounted at a path, read through the [OS] interface:
    entries keep the order in which the system lists them, and [os.walk]
    visits a directory before the directories below it, in that order. *)
Module TreeFS.

#[local] Set Warnings "-register-all".

Inductive node : Type :=
| File
| Dir (entries : list (string * node)).

Definition is_dir (n : node) : bool :=
  match n with Dir _ => true | File => false end.

Definition dirnames (es : list (string * node)) : list string :=
  (filter (fun e => is_dir (snd e) = true) es).*1.

Definition filenames (es : list (string * node)) : list string :=
  (filter (fun e => is_dir (snd e) = false) es).*1.

Fixpoint walk_node (top : string) (n : node)
    : list (string * list string * list string) :=
  match n with
  | File => []
  | Dir es =>
      (top, dirnames es, filenames es) ::
      (fix below (es : list (string * node)) :=
         match es with
         | [] => []
         | (name, sub) :: es' =>
             walk_node (posixpath.join top name) sub ++ below es'
         end) es
  end.

(** Every path of the tree with the node it names. *)
Fixpoint paths (top : string) (n : node) : list (string * node) :=
  (top, n) ::
  match n with
  | File => []
  | Dir es =>
      (fix below (es : list (string * node)) :=
         match es with
         | [] => []
         | (name, sub) :: es' =>
             paths (posixpath.join top name) sub ++ below es'
         end) es
  end.

Definition resolve (mount : string) (tree : node) (p : string) : option node :=
  snd <$> List.find (fun e => String.eqb (fst e) p) (paths mount tree).

(** [~] and [~/...] expand to [home]; every other path is left as it is. *)
Definition expand (home p : string) : string :=
  if String.eqb p "~" || startswith p "~/"
  then home +:+ substring 1 (String.length p - 1) p
  else p.

Definition os (py3 : bool) (home mount : string) (tree : node) : OS string := {|
  version_ge_35 := py3;
  scandir := fun d =>
    match resolve mount tree d with
    | Some (Dir es) => Ok (map (fun e => (fst e, is_dir (snd e))) es)
    | _ => Raise (OSError d)
    end;
  listdir := fun d =>
    match resolve mount tree d with
    | Some (Dir es) => Ok (es.*1)
    | _ => Raise (OSError d)
    end;
  isdir := fun d =>
    match resolve mount tree d with
    | Some n => is_dir n
    | None => false
    end;
  walk := fun d =>
    match resolve mount tree d with
    | Some n => walk_node d n
    | None => []
    end;
  expanduser := expand home;
  imread := fun p => Ok ("pixels of " +:+ p)
|}.

End TreeFS.

(** ** Directories to test on *)

Module Fixtures.
Import TreeFS.

(** [/tmp/x] with [class0/a.jpg], [class0/b.png], [class1/c.jpg]; the
    system lists [class1] first. *)
Definition two_classes : node :=
  Dir [("class1", Dir [("c.jpg", File)]);
       ("notes.txt", File);
       ("class0", Dir [("b.png", File); ("a.jpg", File)])].

(** A root that holds text files only. *)
Definition only_text : node :=
  Dir [("docs", Dir [("readme.txt", File)]); ("todo.txt", File)].

(** One class directory with [1.jpg] and [10.jpg], listed in that order
    reversed. *)
Definition numbered : node :=
  Dir [("cls", Dir [("10.jpg", File); ("1.jpg", File)])].

(** One class directory [c] with the directories [a/b] and [a-c] below
    it, each holding one image. *)
Definition dashed : node :=
  Dir [("c", Dir [("a", Dir [("b", Dir [("x.jpg", File)])]);
                  ("a-c", Dir [("y.jpg", File)])])].

Definition linux (tree : node) : OS string :=
  TreeFS.os true "/home/u" "/tmp/x" tree.

(** The user's directory [/home/u/x], reached as [~/x], holding text
    files only. *)
Definition home_text : OS string :=
  TreeFS.os true "/home/u" "/home/u/x" only_text.

(** The objects the two constructors build on [two_classes]. *)
Definition two_classes_dataset : DatasetFolder.t string := {|
  DatasetFolder.root := "/tmp/x";
  DatasetFolder.transform := None;
  DatasetFolder.loader := cv2_loader (linux two_classes);
  DatasetFolder.extensions := IMG_EXTENSIONS;
  DatasetFolder.classes := ["class0"; "class1"];
  DatasetFolder.class_to_idx := <["class1" := 1]> (<["class0" := 0]> ∅);
  DatasetFolder.samples :=
    [("/tmp/x/class0/a.jpg", 0); ("/tmp/x/class0/b.png", 0);
     ("/tmp/x/class1/c.jpg", 1)];
  DatasetFolder.targets := [0; 0; 1]
|}.

Definition two_classes_images : ImageFolder.t string := {|
  ImageFolder.root := "/tmp/x";
  ImageFolder.loader := cv2_loader (linux two_classes);
  ImageFolder.extensions := IMG_EXTENSIONS;
  ImageFolder.samples :=
    ["/tmp/x/class0/a.jpg"; "/tmp/x/class0/b.png"; "/tmp/x/class1/c.jpg"];
  ImageFolder.transform := None
|}.

End Fixtures.

(** ** Vocabulary of the statements *)

(** [x] occurs in [l] somewhere before an occurrence of [y]. *)
Definition before {A} (x y : A) (l : list A) : Prop :=
  exists l1 l2 l3, l = l1 ++ x :: l2 ++ y :: l3.

(** The files of one [os.walk] tuple that pass the extension filter, as
    full paths, in the order of the sorted file names. *)
Definition files_of (exts : list string)
    (e : string * list string * list string) : list string :=
  filter (fun p => has_valid_extension p exts = true)
         (map (posixpath.join e.1.1) (sorted e.2)).

(** What one walk below [top] collects. *)
Definition scan {Sample} (os : OS Sample) (exts : list string) (top : string)
    : list string :=
  sorted (walk os top) ≫= files_of exts.

(** The directory [top] holds, at some depth, a file the filter accepts. *)
Definition has_match {Sample} (os : OS Sample) (exts : list string)
    (top : string) : Prop :=
  exists root dirs fnames fname,
    (root, dirs, fnames) ∈ walk os top /\ fname ∈ fnames /\
    has_valid_extension (posixpath.join root fname) exts = true.

(** The names the system lists as directories right below [dir]; the
    listing call depends on the interpreter as in [_find_classes]. *)
Definition listed_dirs {Sample} (os : OS Sample) (dir : string)
    : result (list string) :=
  if version_ge_35 os then
    match scandir os dir with
    | Ok entries => Ok ((filter (fun d => snd d = true) entries).*1)
    | Raise e => Raise e
    end
  else
    match listdir os dir with
    | Ok names =>
        Ok (filter (fun d => isdir os (posixpath.join dir d) = true) names)
    | Raise e => Raise e
    end.

(** What [make_dataset] collects for the class [target]. *)
Definition class_scan {Sample} (os : OS Sample) (exts : list string)
    (dir : string) (class_to_idx : gmap string nat) (target : string)
    : list (string * nat) :=
  let d := posixpath.join (expanduser os dir) target in
  if isdir os d then
    match class_to_idx !! target with
    | Some idx => map (fun p => (p, idx)) (scan os exts d)
    | None => []
    end
  else [].

(** What [make_dataset] collects with an extension tuple. *)
Definition labelled_scan {Sample} (os : OS Sample) (exts : list string)
    (dir : string) (class_to_idx : gmap string nat) : list (string * nat) :=
  sorted (keys class_to_idx) ≫= class_scan os exts dir class_to_idx.

(** The name [c] is listed as a directory right below [dir]. *)
Definition is_subdir {Sample} (os : OS Sample) (dir c : string) : Prop :=
  if version_ge_35 os then
    exists entries, scandir os dir = Ok entries /\ (c, true) ∈ entries
  else
    exists names, listdir os dir = Ok names /\ c ∈ names /\
      isdir os (posixpath.join dir c) = true.

(** Some class directory of [root] holds a file the filter accepts. *)
Definition class_has_match {Sample} (os : OS Sample) (exts : list string)
    (root : string) : Prop :=
  exists c, is_subdir os root c /\
    isdir os (posixpath.join (expanduser os root) c) = true /\
    has_match os exts (posixpath.join (expanduser os root) c).

(** Loading the file at [path] and transforming it, as both [__getitem__]
    do once they have the path. *)
Definition fetch {Sample} (loader : string -> result Sample)
    (transform : option (Sample -> result Sample)) (path : string)
    : result Sample :=
  sample ← loader path;
  match transform with
  | Some f => f sample
  | None => Ok sample
  end.

(** The extension tuple in force when the caller gives [extensions]. *)
Definition effective (extensions : option (list string)) : list string :=
  match extensions with None => IMG_EXTENSIONS | Some e => e end.

(** The files below [top], as full paths, in the order in which the walk
    loop of either scan comes to them, before any filter. *)
Definition visited {Sample} (os : OS Sample) (top : string) : list string :=
  sorted (walk os top) ≫= (fun e => map (posixpath.join e.1.1) (sorted e.2)).

(** The (path, class name) pairs in the order in which [make_dataset]
    comes to them: class by class, skipping a class whose directory is
    missing. *)
Definition candidates {Sample} (os : OS Sample) (dir : string)
    (class_to_idx : gmap string nat) : list (string * string) :=
  sorted (keys class_to_idx) ≫= (fun target =>
    let d := posixpath.join (expanduser os dir) target in
    if isdir os d then map (fun p => (p, target)) (visited os d) else []).

(** The body of the innermost loop of [make_dataset] on one candidate. *)
Definition keep (is_valid_file : option (string -> result bool))
    (class_to_idx : gmap string nat) (images : list (string * nat))
    (item : string * string) : result (list (string * nat)) :=
  valid ← call is_valid_file item.1;
  if valid : bool then
    idx ← dict_getitem class_to_idx item.2;
    Ok (images ++ [(item.1, idx)])
  else Ok images.

(** The candidates of [make_dataset] that pass the extension filter, each
    with the index of its class, in the order of the candidates. *)
Definition accepted {Sample} (os : OS Sample) (exts : list string)
    (dir : string) (class_to_idx : gmap string nat) : list (string * nat) :=
  omap (fun it =>
          if has_valid_extension it.1 exts
          then (fun idx => (it.1, idx)) <$> class_to_idx !! it.2
          else None)
       (candidates os dir class_to_idx).

(** The string holds a slash. *)
Fixpoint has_slash (s : string) : bool :=
  match s with
  | EmptyString => false
  | String c s' => Ascii.eqb c "/" || has_slash s'
  end.

(** Section 4.3 of the specification read literally: a depth-first walk
    that takes the files of a directory in sorted order and then descends
    into its subdirectories in sorted order. *)
Module Spec.
Import TreeFS.

Fixpoint collect (is_valid : string -> bool) (top : string) (n : node)
    : list string :=
  match n with
  | File => []
  | Dir es =>
      filter (fun p => is_valid p = true)
             (map (posixpath.join top) (sorted (filenames es)))
      ++ concat (sorted
           ((fix below (es : list (string * node)) :=
               match es with
               | [] => []
               | (name, sub) :: es' =>
                   (name, collect is_valid (posixpath.join top name) sub)
                   :: below es'
               end) es)).*2
  end.

End Spec.

(** * Properties *)

(** ** The order of Python values *)

Class CmpLaws (A : Type) `{Cmp A} : Prop := {
  cmp_eq x y : cmp x y = Eq <-> x = y;
  cmp_opp x y : cmp y x = CompOpp (cmp x y);
  cmp_trans c x y z : cmp x y = c -> cmp y z = c -> cmp x z = c
}.

#[global] Instance cmp_char_laws : CmpLaws ascii.
Proof.
  split; unfold cmp, cmp_char, Ascii.compare.
  - intros x y. rewrite N.compare_eq_iff. split; [|congruence].
    intros E. rewrite <- (ascii_N_embedding x), <- (ascii_N_embedding y).
    congruence.
  - intros x y. apply N.compare_antisym.
  - intros c x y z. destruct c.
    + rewrite !N.compare_eq_iff. congruence.
    + rewrite !N.compare_lt_iff. lia.
    + rewrite !N.compare_gt_iff. lia.
Qed.

#[global] Instance cmp_list_laws {A} `{CmpLaws A} : CmpLaws (list A).
Proof.
  split; unfold cmp, cmp_list.
  - intros x y. apply list_compare_refl. apply cmp_eq.
  - intros x y. apply list_compare_antisym; [apply cmp_eq | apply cmp_opp].
  - intros c x y z. apply list_compare_trans;
      [apply cmp_eq | intros; eapply cmp_trans; eauto | apply cmp_opp].
Qed.

Lemma cmp_str_unfold (s t : string) :
  cmp s t = cmp (list_ascii_of_string s) (list_ascii_of_string t).
Proof. reflexivity. Qed.

#[global] Instance cmp_str_laws : CmpLaws string.
Proof.
  split; intros *; rewrite !cmp_str_unfold.
  - rewrite cmp_eq. split; [|congruence].
    intros E. rewrite <- (string_of_list_ascii_of_string x),
      <- (string_of_list_ascii_of_string y). congruence.
  - apply cmp_opp.
  - apply cmp_trans.
Qed.

Lemma cmp_tuple_unfold {A B} `{Cmp A, Cmp B} (p q : A * B) :
  cmp p q = match cmp p.1 q.1 with Eq => cmp p.2 q.2 | c => c end.
Proof. reflexivity. Qed.

#[global] Instance cmp_tuple_laws {A B} `{CmpLaws A, CmpLaws B} : CmpLaws (A * B).
Proof.
  split.
  - intros [x1 x2] [y1 y2]. rewrite cmp_tuple_unfold; simpl. split.
    + destruct (cmp x1 y1) eqn:E1; try discriminate.
      intros E2. apply cmp_eq in E1, E2. congruence.
    + intros [= -> ->]. rewrite (proj2 (cmp_eq y1 y1) eq_refl).
      apply cmp_eq; reflexivity.
  - intros [x1 x2] [y1 y2]. rewrite !cmp_tuple_unfold; simpl.
    rewrite (cmp_opp x1 y1).
    destruct (cmp x1 y1); simpl; auto using cmp_opp.
  - intros c [x1 x2] [y1 y2] [z1 z2]. rewrite !cmp_tuple_unfold; simpl.
    destruct (cmp x1 y1) eqn:E1, (cmp y1 z1) eqn:E2;
      try (apply cmp_eq in E1; subst y1; rewrite ?E2);
      try (apply cmp_eq in E2; subst z1; rewrite ?E1);
      rewrite ?(proj2 (cmp_eq _ _) eq_refl);
      intros; subst; try congruence;
      try (eapply cmp_trans; eauto; fail);
      try (rewrite (cmp_trans _ _ _ _ E1 E2); reflexivity).
Qed.

Section order.
Context {A : Type} `{CmpLaws A}.
Implicit Types (x y z : A) (l : list A).

Lemma cmp_refl x : cmp x x = Eq.
Proof. apply cmp_eq; reflexivity. Qed.

Lemma py_ltb_lt x y : py_ltb x y = true <-> py_lt x y.
Proof. unfold py_ltb, py_lt. destruct (cmp x y); split; congruence. Qed.

Lemma py_ltb_ge x y : py_ltb x y = false <-> py_le y x.
Proof.
  unfold py_ltb, py_le. rewrite (cmp_opp x y).
  destruct (cmp x y); simpl; split; congruence.
Qed.

Lemma py_lt_le x y : py_lt x y -> py_le x y.
Proof. unfold py_lt, py_le. congruence. Qed.

Lemma py_lt_not_ge x y : py_lt x y -> ~ py_le y x.
Proof.
  unfold py_lt, py_le. rewrite (cmp_opp x y). intros ->. simpl. tauto.
Qed.

Lemma py_lt_ne x y : py_lt x y -> x <> y.
Proof. unfold py_lt. intros E ->. rewrite cmp_refl in E. discriminate. Qed.

#[global] Instance py_le_refl : Reflexive (@py_le A _).
Proof. intros x. unfold py_le. rewrite cmp_refl. discriminate. Qed.

#[global] Instance py_le_trans : Transitive (@py_le A _).
Proof.
  intros x y z. unfold py_le.
  destruct (cmp x y) eqn:E1; [|destruct (cmp y z) eqn:E2|]; try tauto.
  - apply cmp_eq in E1. subst. tauto.
  - apply cmp_eq in E2. subst. rewrite E1. discriminate.
  - rewrite (cmp_trans _ _ _ _ E1 E2). discriminate.
Qed.

#[global] Instance py_le_total : Total (@py_le A _).
Proof.
  intros x y. unfold py_le. rewrite (cmp_opp x y).
  destruct (cmp x y); simpl; [left|left|right]; discriminate.
Qed.

#[global] Instance py_le_antisym : AntiSymm (=) (@py_le A _).
Proof.
  intros x y. unfold py_le. rewrite (cmp_opp x y).
  destruct (cmp x y) eqn:E; simpl; try tauto.
  intros _ _. apply cmp_eq. exact E.
Qed.

Lemma insort_Permutation x l : insort x l ≡ₚ x :: l.
Proof.
  induction l as [|y l IH]; simpl; [reflexivity|].
  destruct (py_ltb y x); [|reflexivity].
  rewrite IH. apply perm_swap.
Qed.

Lemma insort_StronglySorted x l :
  StronglySorted py_le l -> StronglySorted py_le (insort x l).
Proof.
  induction 1 as [|y l Hl IH Hy]; simpl.
  - repeat constructor.
  - destruct (py_ltb y x) eqn:E.
    + constructor; [exact IH|].
      rewrite insort_Permutation. constructor; [|exact Hy].
      apply py_lt_le, py_ltb_lt, E.
    + apply py_ltb_ge in E. constructor; [constructor; assumption|].
      constructor; [exact E|].
      eapply Forall_impl; [exact Hy|]. intros z Hz. etransitivity; eauto.
Qed.

Lemma sorted_Permutation l : sorted l ≡ₚ l.
Proof.
  induction l as [|x l IH]; simpl; [reflexivity|].
  rewrite insort_Permutation, IH. reflexivity.
Qed.

Lemma sorted_StronglySorted l : StronglySorted py_le (sorted l).
Proof.
  induction l as [|x l IH]; simpl; [constructor|].
  apply insort_StronglySorted, IH.
Qed.

Lemma elem_of_sorted x l : x ∈ sorted l <-> x ∈ l.
Proof. rewrite sorted_Permutation. reflexivity. Qed.

(** The result of [sorted] depends on the elements only, not on the order
    in which they are given. *)
Lemma sorted_unique l1 l2 : l1 ≡ₚ l2 -> sorted l1 = sorted l2.
Proof.
  intros P. apply (StronglySorted_unique py_le).
  - apply sorted_StronglySorted.
  - apply sorted_StronglySorted.
  - rewrite !sorted_Permutation. exact P.
Qed.

Lemma sorted_fixed l : StronglySorted py_le l -> sorted l = l.
Proof.
  intros S. apply (StronglySorted_unique py_le); auto.
  - apply sorted_StronglySorted.
  - apply sorted_Permutation.
Qed.

Lemma StronglySorted_before x y l :
  StronglySorted py_le l -> x ∈ l -> y ∈ l -> py_lt x y -> before x y l.
Proof.
  intros S Hx Hy Hlt.
  apply list_elem_of_split in Hx as (l1 & l2 & ->).
  apply elem_of_app in Hy as [Hy|Hy].
  - exfalso. apply StronglySorted_app_1_elem_of with (x1 := y) (x2 := x) in S;
      [|exact Hy|left].
    exact (py_lt_not_ge _ _ Hlt S).
  - apply elem_of_cons in Hy as [->|Hy].
    + exfalso. exact (py_lt_ne _ _ Hlt eq_refl).
    + apply list_elem_of_split in Hy as (l3 & l4 & ->).
      exists l1, l3, l4. reflexivity.
Qed.

Lemma sorted_before x y l :
  x ∈ l -> y ∈ l -> py_lt x y -> before x y (sorted l).
Proof.
  intros Hx Hy. apply StronglySorted_before.
  - apply sorted_StronglySorted.
  - apply elem_of_sorted, Hx.
  - apply elem_of_sorted, Hy.
Qed.

End order.

(** ** Loops and indexing *)

Lemma for_each_append {A B} (xs : list A) (g : A -> list B)
    (body : list B -> A -> result (list B)) (s : list B) :
  (forall x s, x ∈ xs -> body s x = Ok (s ++ g x)) ->
  for_each xs body s = Ok (s ++ (xs ≫= g)).
Proof.
  revert s. induction xs as [|x xs IH]; intros s Hb; simpl.
  - rewrite app_nil_r. reflexivity.
  - rewrite (Hb x s) by left. simpl. rewrite IH.
    + rewrite app_assoc. reflexivity.
    + intros y s' Hy. apply Hb. right. exact Hy.
Qed.

Lemma bind_filter_map {A} (fs : list string) (j : string -> string)
    (p : string -> bool) (ks : string -> A) :
  fs ≫= (fun f => if p (j f) then [ks (j f)] else [])
  = map ks (filter (fun x => p x = true) (map j fs)).
Proof.
  induction fs as [|f fs IH]; [reflexivity|].
  cbn [map]. rewrite bind_cons, IH. destruct (p (j f)) eqn:E.
  - rewrite filter_cons_True by exact E. reflexivity.
  - rewrite filter_cons_False by congruence. reflexivity.
Qed.

Lemma getitem_in_range {A} (l : list A) (i : Z) :
  (0 <= i < Z.of_nat (length l))%Z ->
  exists x, l !! Z.to_nat i = Some x /\ getitem l i = Ok x.
Proof.
  intros Hi. unfold getitem.
  destruct (i <? 0)%Z eqn:E1; [lia|].
  destruct ((i <? 0) || (Z.of_nat (length l) <=? i))%Z eqn:E2; [lia|].
  destruct (l !! Z.to_nat i) as [x|] eqn:E3; [eauto|].
  apply lookup_ge_None in E3. lia.
Qed.

Lemma getitem_negative {A} (l : list A) (i : Z) :
  (- Z.of_nat (length l) <= i < 0)%Z ->
  getitem l i = getitem l (i + Z.of_nat (length l)).
Proof.
  intros Hi. unfold getitem.
  destruct (i <? 0)%Z eqn:E1; [|lia].
  destruct (i + Z.of_nat (length l) <? 0)%Z eqn:E2; [lia|].
  cbv zeta. rewrite E2. reflexivity.
Qed.

Lemma getitem_IndexError {A} (l : list A) (i : Z) :
  getitem l i = Raise IndexError <->
  (i < - Z.of_nat (length l) \/ Z.of_nat (length l) <= i)%Z.
Proof.
  split.
  - intros E.
    destruct (Z_lt_dec i (- Z.of_nat (length l))); [lia|].
    destruct (Z_le_dec (Z.of_nat (length l)) i); [lia|]. exfalso.
    destruct (Z_lt_dec i 0).
    + rewrite getitem_negative in E by lia.
      destruct (getitem_in_range l (i + Z.of_nat (length l))) as (x & _ & E');
        [lia|congruence].
    + destruct (getitem_in_range l i) as (x & _ & E'); [lia|congruence].
  - intros Hi. unfold getitem.
    destruct (i <? 0)%Z eqn:E1.
    + destruct ((i + _ <? 0) || _)%Z eqn:E2; [reflexivity|lia].
    + destruct ((i <? 0) || _)%Z eqn:E2; [reflexivity|lia].
Qed.

(** ** What the two scans collect *)

Lemma map_bind {A B C} (f : B -> C) (g : A -> list B) (xs : list A) :
  map f (xs ≫= g) = xs ≫= (fun x => map f (g x)).
Proof.
  induction xs as [|x xs IH]; [reflexivity|].
  rewrite !bind_cons, map_app, IH. reflexivity.
Qed.

Lemma elem_of_keys (d : gmap string nat) (k : string) :
  k ∈ keys d <-> exists v, d !! k = Some v.
Proof.
  unfold keys. rewrite list_elem_of_fmap. split.
  - intros ([k' v] & -> & Hkv). exists v.
    apply elem_of_map_to_list in Hkv. exact Hkv.
  - intros (v & Hv). exists (k, v). split; [reflexivity|].
    apply elem_of_map_to_list. exact Hv.
Qed.

(** The loop over the walk, for a filter that does not raise and a way
    [mk] to build an item from a path. *)
Lemma walk_loop {A} (exts : list string) (mk : string -> A)
    (W : list (string * list string * list string))
    (body : list A -> string * list string * list string -> result (list A))
    (acc : list A) :
  (forall root dirs fnames acc,
     body acc (root, dirs, fnames) =
     for_each (sorted fnames) (fun acc fname =>
       if has_valid_extension (posixpath.join root fname) exts
       then Ok (acc ++ [mk (posixpath.join root fname)])
       else Ok acc) acc) ->
  for_each W body acc = Ok (acc ++ map mk (W ≫= files_of exts)).
Proof.
  intros Hbody. rewrite map_bind. apply for_each_append.
  intros [[root dirs] fnames] s _. rewrite Hbody. unfold files_of; simpl.
  rewrite <- (bind_filter_map _ _ (fun p => has_valid_extension p exts)).
  apply for_each_append. intros f s' _.
  destruct (has_valid_extension _ _); rewrite ?app_nil_r; reflexivity.
Qed.

Lemma make_dataset_ext {Sample} (os : OS Sample) (dir : string)
    (class_to_idx : gmap string nat) (exts : list string)
    (is_valid_file : option (string -> result bool)) :
  make_dataset os dir class_to_idx (Some exts) is_valid_file
  = Ok (labelled_scan os exts dir class_to_idx).
Proof.
  unfold make_dataset, labelled_scan. cbv zeta.
  rewrite (for_each_append _ (class_scan os exts dir class_to_idx));
    [reflexivity|].
  intros target s Ht. unfold class_scan. cbv zeta.
  destruct (isdir os _) eqn:Ed; simpl; [|rewrite app_nil_r; reflexivity].
  apply elem_of_sorted, elem_of_keys in Ht as (idx & Hidx). rewrite Hidx.
  apply (walk_loop exts (fun p => (p, idx))).
  intros root dirs fnames acc. f_equal.
  unfold dict_getitem. rewrite Hidx. reflexivity.
Qed.

Lemma ImageFolder_init_eq {Sample} (os : OS Sample) (root : string)
    (loader : option (string -> result Sample))
    (extensions : option (list string))
    (transform : option (Sample -> result Sample))
    (is_valid_file : option (string -> result bool)) :
  ImageFolder.__init__ os root loader extensions transform is_valid_file =
  let exts := effective extensions in
  let samples := scan os exts (expanduser os root) in
  if (length samples =? 0)%nat then
    Raise (RuntimeError (found_0_files root exts))
  else
    Ok {| ImageFolder.root := root;
          ImageFolder.loader :=
            match loader with None => cv2_loader os | Some l => l end;
          ImageFolder.extensions := exts;
          ImageFolder.samples := samples;
          ImageFolder.transform := transform |}.
Proof.
  unfold ImageFolder.__init__. cbv zeta.
  rewrite (walk_loop (effective extensions) id).
  - simpl. rewrite map_id. reflexivity.
  - intros. reflexivity.
Qed.

Lemma DatasetFolder_init_eq {Sample} (os : OS Sample) (root : string)
    (loader : option (string -> result Sample))
    (extensions : option (list string))
    (transform : option (Sample -> result Sample))
    (is_valid_file : option (string -> result bool)) :
  DatasetFolder.__init__ os root loader extensions transform is_valid_file =
  let exts := effective extensions in
  match DatasetFolder._find_classes os root with
  | Raise e => Raise e
  | Ok (classes, class_to_idx) =>
      let samples := labelled_scan os exts root class_to_idx in
      if (length samples =? 0)%nat then
        Raise (RuntimeError (found_0_files root exts))
      else
        Ok {| DatasetFolder.root := root;
              DatasetFolder.transform := transform;
              DatasetFolder.loader :=
                match loader with None => cv2_loader os | Some l => l end;
              DatasetFolder.extensions := exts;
              DatasetFolder.classes := classes;
              DatasetFolder.class_to_idx := class_to_idx;
              DatasetFolder.samples := samples;
              DatasetFolder.targets := map snd samples |}
  end.
Proof.
  unfold DatasetFolder.__init__. cbv zeta.
  destruct (DatasetFolder._find_classes os root) as [[classes c2i]|e];
    [|reflexivity].
  simpl. rewrite make_dataset_ext. reflexivity.
Qed.

(** ** The extension filter *)

Lemma length_append (p e : string) :
  String.length (p +:+ e) = String.length p + String.length e.
Proof. induction p as [|c p IH]; simpl; [reflexivity|]. rewrite IH. reflexivity. Qed.

Lemma substring_all (e : string) : substring 0 (String.length e) e = e.
Proof. induction e as [|c e IH]; simpl; [reflexivity|]. rewrite IH. reflexivity. Qed.

Lemma substring_skip (p e : string) :
  substring (String.length p) (String.length e) (p +:+ e) = e.
Proof. induction p as [|c p IH]; simpl; [apply substring_all|exact IH]. Qed.

Lemma substring_split (k : nat) (s : string) :
  k <= String.length s ->
  substring 0 k s +:+ substring k (String.length s - k) s = s.
Proof.
  revert s. induction k as [|k IH]; intros s Hk.
  - rewrite Nat.sub_0_r, substring_all. destruct s; reflexivity.
  - destruct s as [|c s]; simpl in *; [lia|].
    change (String c (substring 0 k s) +:+ ?t)
      with (String c (substring 0 k s +:+ t)).
    rewrite IH by lia. reflexivity.
Qed.

(** [s.endswith(e)] holds exactly when [s] is some prefix followed by [e]. *)
Lemma str_endswith_spec (s e : string) :
  str_endswith s e = true <-> exists p, s = p +:+ e.
Proof.
  unfold str_endswith. split.
  - destruct (String.length e <=? String.length s)%nat eqn:E; [|discriminate].
    apply Nat.leb_le in E. intros Heq. apply String.eqb_eq in Heq.
    exists (substring 0 (String.length s - String.length e) s).
    pose proof (substring_split (String.length s - String.length e) s) as Hs.
    replace (String.length s - (String.length s - String.length e))
      with (String.length e) in Hs by lia.
    rewrite Heq in Hs. symmetry. apply Hs. lia.
  - intros [p ->]. rewrite length_append.
    destruct (_ <=? _)%nat eqn:E; [|apply Nat.leb_gt in E; lia].
    replace (String.length p + String.length e - String.length e)
      with (String.length p) by lia.
    rewrite substring_skip. apply String.eqb_refl.
Qed.

Lemma lower_char_idemp (c : ascii) : lower_char (lower_char c) = lower_char c.
Proof.
  destruct c as [[] [] [] [] [] [] [] []]; reflexivity.
Qed.

Lemma lower_idemp (s : string) : lower (lower s) = lower s.
Proof.
  induction s as [|c s IH]; simpl; [reflexivity|].
  rewrite lower_char_idemp, IH. reflexivity.
Qed.

(** C6. The extension filter is a total boolean function of the file name
    and the extension tuple. It answers [true] exactly when the
    lower-cased file name ends with one of the extensions, taken as they
    are given; so file names that agree up to case get the same answer,
    and the lower-cased name gets the answer of the name itself. *)
Theorem has_valid_extension_spec (filename : string) (extensions : list string) :
  (has_valid_extension filename extensions = true <->
     exists e p, e ∈ extensions /\ lower filename = p +:+ e)
  /\ (has_valid_extension filename extensions = false <->
     forall e p, e ∈ extensions -> lower filename <> p +:+ e)
  /\ (forall filename', lower filename' = lower filename ->
        has_valid_extension filename' extensions
        = has_valid_extension filename extensions)
  /\ has_valid_extension (lower filename) extensions
     = has_valid_extension filename extensions.
Proof.
  assert (Hiff : forall f, has_valid_extension f extensions = true <->
     exists e p, e ∈ extensions /\ lower f = p +:+ e).
  { intros f. unfold has_valid_extension, endswith.
    rewrite existsb_exists. split.
    - intros (e & He & Hs). apply str_endswith_spec in Hs as [p Hp].
      exists e, p. split; [apply list_elem_of_In, He|exact Hp].
    - intros (e & p & He & Hp). exists e.
      split; [apply list_elem_of_In, He|].
      apply str_endswith_spec. exists p. exact Hp. }
  repeat split.
  - apply Hiff.
  - apply Hiff.
  - intros Hf e p He Hp.
    assert (has_valid_extension filename extensions = true) as Ht
      by (apply Hiff; eauto).
    congruence.
  - intros Hn. destruct (has_valid_extension filename extensions) eqn:E;
      [|reflexivity].
    apply Hiff in E as (e & p & He & Hp). destruct (Hn e p He Hp).
  - intros f' Hf'. unfold has_valid_extension. rewrite Hf'. reflexivity.
  - unfold has_valid_extension. rewrite lower_idemp. reflexivity.
Qed.

(** The extension tuple is not lower-cased: an upper-case extension
    matches no file name, and the empty tuple matches nothing. *)
Example has_valid_extension_examples :
  has_valid_extension "IMG_0001.JPG" [".jpg"; ".png"] = true /\
  has_valid_extension "img_0001.jpg" [".JPG"] = false /\
  has_valid_extension "notes.txt" IMG_EXTENSIONS = false /\
  has_valid_extension "img.jpg" [] = false.
Proof. repeat split. Qed.

(** ** Access by index *)

Lemma DatasetFolder_getitem_eq {Sample} (self : DatasetFolder.t Sample)
    (index : Z) (path : string) (target : nat) :
  getitem (DatasetFolder.samples self) index = Ok (path, target) ->
  DatasetFolder.__getitem__ self index =
  (s ← fetch (DatasetFolder.loader self) (DatasetFolder.transform self) path;
   Ok (s, target)).
Proof.
  intros E. unfold DatasetFolder.__getitem__, fetch. rewrite E. simpl.
  destruct (DatasetFolder.loader self path); [|reflexivity]. simpl.
  destruct (DatasetFolder.transform self); reflexivity.
Qed.

Lemma ImageFolder_getitem_eq {Sample} (self : ImageFolder.t Sample)
    (index : Z) (path : string) :
  getitem (ImageFolder.samples self) index = Ok path ->
  ImageFolder.__getitem__ self index =
  (s ← fetch (ImageFolder.loader self) (ImageFolder.transform self) path;
   Ok [s]).
Proof.
  intros E. unfold ImageFolder.__getitem__, fetch. rewrite E. simpl.
  destruct (ImageFolder.loader self path); [|reflexivity]. simpl.
  destruct (ImageFolder.transform self); reflexivity.
Qed.

(** C7. At a valid index, [ImageFolder]'s [__getitem__] loads and
    transforms the sample at that position and returns it as a list of one
    element, while [DatasetFolder]'s [__getitem__] returns the pair of the
    sample and its label. A failure of the loader or of the transform is
    the only way not to return. *)
Theorem getitem_shapes {Sample} (img : ImageFolder.t Sample)
    (ds : DatasetFolder.t Sample) (i j : Z) :
  (0 <= i < Z.of_nat (ImageFolder.__len__ img))%Z ->
  (0 <= j < Z.of_nat (DatasetFolder.__len__ ds))%Z ->
  (exists path,
     ImageFolder.samples img !! Z.to_nat i = Some path /\
     ImageFolder.__getitem__ img i =
       (s ← fetch (ImageFolder.loader img) (ImageFolder.transform img) path;
        Ok [s]))
  /\ (forall r, ImageFolder.__getitem__ img i = Ok r -> length r = 1)
  /\ (exists path target,
     DatasetFolder.samples ds !! Z.to_nat j = Some (path, target) /\
     DatasetFolder.__getitem__ ds j =
       (s ← fetch (DatasetFolder.loader ds) (DatasetFolder.transform ds) path;
        Ok (s, target))).
Proof.
  intros Hi Hj.
  destruct (getitem_in_range (ImageFolder.samples img) i Hi) as (path & Hp & Eg).
  destruct (getitem_in_range (DatasetFolder.samples ds) j Hj)
    as ([path' target] & Hp' & Eg').
  split; [|split].
  - exists path. split; [exact Hp|]. apply ImageFolder_getitem_eq, Eg.
  - intros r. rewrite (ImageFolder_getitem_eq _ _ _ Eg).
    destruct (fetch _ _ path); simpl; [|discriminate].
    intros [= <-]. reflexivity.
  - exists path', target. split; [exact Hp'|].
    apply DatasetFolder_getitem_eq, Eg'.
Qed.

(** The scenario of the specification: [/tmp/x] with [class0/a.jpg],
    [class0/b.png] and [class1/c.jpg]. *)
Example two_classes_built :
  DatasetFolder.__init__ (Fixtures.linux Fixtures.two_classes) "/tmp/x"
    None None None None = Ok Fixtures.two_classes_dataset
  /\ ImageFolder.__init__ (Fixtures.linux Fixtures.two_classes) "/tmp/x"
    None None None None = Ok Fixtures.two_classes_images
  /\ DatasetFolder.__len__ Fixtures.two_classes_dataset = 3.
Proof. repeat split; vm_compute; reflexivity. Qed.

Lemma getitem_shapes_witness :
  (0 <= 1 < Z.of_nat (ImageFolder.__len__ Fixtures.two_classes_images))%Z
  /\ (0 <= 2 < Z.of_nat (DatasetFolder.__len__ Fixtures.two_classes_dataset))%Z
  /\ (forall r, ImageFolder.__getitem__ Fixtures.two_classes_images 1 = Ok r ->
        length r = 1).
Proof.
  assert (H1 : (0 <= 1 < Z.of_nat
    (ImageFolder.__len__ Fixtures.two_classes_images))%Z) by (vm_compute; split; [discriminate|reflexivity]).
  assert (H2 : (0 <= 2 < Z.of_nat
    (DatasetFolder.__len__ Fixtures.two_classes_dataset))%Z) by (vm_compute; split; [discriminate|reflexivity]).
  split; [exact H1|]. split; [exact H2|].
  exact (proj1 (proj2 (getitem_shapes Fixtures.two_classes_images
                         Fixtures.two_classes_dataset 1 2 H1 H2))).
Defined.

(** C8. In a constructed [DatasetFolder], [targets] runs parallel to
    [samples]: both have the same length, and the target at each position
    is the label of the sample at that position. *)
Theorem targets_parallel {Sample} (os : OS Sample) (root : string)
    (loader : option (string -> result Sample))
    (extensions : option (list string))
    (transform : option (Sample -> result Sample))
    (is_valid_file : option (string -> result bool))
    (self : DatasetFolder.t Sample) :
  DatasetFolder.__init__ os root loader extensions transform is_valid_file
    = Ok self ->
  length (DatasetFolder.targets self) = length (DatasetFolder.samples self)
  /\ forall i : nat,
       DatasetFolder.targets self !! i
       = snd <$> DatasetFolder.samples self !! i.
Proof.
  rewrite DatasetFolder_init_eq. cbv zeta.
  destruct (DatasetFolder._find_classes os root) as [[classes c2i]|e];
    [|discriminate].
  destruct (length _ =? 0)%nat; [discriminate|].
  intros [= <-]. simpl. split.
  - apply length_map.
  - intros i. apply list_lookup_fmap.
Qed.

Lemma targets_parallel_witness :
  length (DatasetFolder.targets Fixtures.two_classes_dataset) = 3
  /\ DatasetFolder.targets Fixtures.two_classes_dataset !! 2
     = snd <$> DatasetFolder.samples Fixtures.two_classes_dataset !! 2.
Proof.
  pose proof (targets_parallel (Fixtures.linux Fixtures.two_classes) "/tmp/x"
                None None None None Fixtures.two_classes_dataset
                ltac:(vm_compute; reflexivity)) as [Hlen Hidx].
  split; [exact Hlen|exact (Hidx 2)].
Defined.

(** ** Indices out of range *)

(** The two objects built on the three-sample scenario answer the index
    [-1], which is outside [0, 3), with the last sample instead of an
    [IndexError]. *)
Lemma getitem_minus_one_returns :
  DatasetFolder.__init__ (Fixtures.linux Fixtures.two_classes) "/tmp/x"
    None None None None = Ok Fixtures.two_classes_dataset
  /\ ImageFolder.__init__ (Fixtures.linux Fixtures.two_classes) "/tmp/x"
    None None None None = Ok Fixtures.two_classes_images
  /\ ~ (0 <= -1 < Z.of_nat (DatasetFolder.__len__ Fixtures.two_classes_dataset))%Z
  /\ DatasetFolder.__getitem__ Fixtures.two_classes_dataset (-1)
     = Ok ("pixels of /tmp/x/class1/c.jpg", 1)
  /\ ImageFolder.__getitem__ Fixtures.two_classes_images (-1)
     = Ok ["pixels of /tmp/x/class1/c.jpg"]
  /\ ~ (DatasetFolder.__getitem__ Fixtures.two_classes_dataset (-1)
          = Raise IndexError <->
        ~ (0 <= -1 < Z.of_nat
             (DatasetFolder.__len__ Fixtures.two_classes_dataset))%Z).
Proof.
  assert (Hout : ~ (0 <= -1 < Z.of_nat
    (DatasetFolder.__len__ Fixtures.two_classes_dataset))%Z) by lia.
  split; [vm_compute; reflexivity|]. split; [vm_compute; reflexivity|].
  split; [exact Hout|]. split; [reflexivity|]. split; [reflexivity|].
  intros [_ Hr]. specialize (Hr Hout). discriminate Hr.
Qed.

(** C3, as the code has it. [__getitem__] indexes the sample list the way
    Python indexes a list: with [n] samples, an index below [-n] or from
    [n] on raises [IndexError] before the loader is called; an index in
    [-n, n) reaches the sample at that position, counted from the end when
    negative, and the result is whatever loading and transforming that
    sample gives. So when neither the loader nor the transform raises
    [IndexError], the error is raised exactly for the indices outside
    [-n, n). *)
Theorem getitem_index_error {Sample} (ds : DatasetFolder.t Sample)
    (img : ImageFolder.t Sample) (i : Z) :
  let n := Z.of_nat (DatasetFolder.__len__ ds) in
  let m := Z.of_nat (ImageFolder.__len__ img) in
  ((i < - n \/ n <= i)%Z -> DatasetFolder.__getitem__ ds i = Raise IndexError)
  /\ ((- n <= i < n)%Z ->
      exists path target,
        DatasetFolder.samples ds !! Z.to_nat (i mod n) = Some (path, target) /\
        DatasetFolder.__getitem__ ds i =
          (s ← fetch (DatasetFolder.loader ds) (DatasetFolder.transform ds) path;
           Ok (s, target)))
  /\ ((i < - m \/ m <= i)%Z -> ImageFolder.__getitem__ img i = Raise IndexError)
  /\ ((- m <= i < m)%Z ->
      exists path,
        ImageFolder.samples img !! Z.to_nat (i mod m) = Some path /\
        ImageFolder.__getitem__ img i =
          (s ← fetch (ImageFolder.loader img) (ImageFolder.transform img) path;
           Ok [s]))
  /\ ((forall path, fetch (DatasetFolder.loader ds) (DatasetFolder.transform ds)
                      path <> Raise IndexError) ->
      (DatasetFolder.__getitem__ ds i = Raise IndexError <->
       (i < - n \/ n <= i)%Z))
  /\ ((forall path, fetch (ImageFolder.loader img) (ImageFolder.transform img)
                      path <> Raise IndexError) ->
      (ImageFolder.__getitem__ img i = Raise IndexError <->
       (i < - m \/ m <= i)%Z)).
Proof.
  intros n m.
  assert (Hlookup : forall {A} (l : list A) (k : Z),
    (- Z.of_nat (length l) <= k < Z.of_nat (length l))%Z ->
    exists x, l !! Z.to_nat (k mod Z.of_nat (length l)) = Some x /\
              getitem l k = Ok x).
  { intros A l k Hk. destruct (Z_lt_dec k 0) as [Hneg|Hpos].
    - rewrite getitem_negative by lia.
      replace (k mod Z.of_nat (length l))%Z with (k + Z.of_nat (length l))%Z
        by (apply Z.mod_unique with (q := (-1)%Z); lia).
      apply getitem_in_range. lia.
    - rewrite Z.mod_small by lia. apply getitem_in_range. lia. }
  assert (Hds_out : (i < - n \/ n <= i)%Z ->
    DatasetFolder.__getitem__ ds i = Raise IndexError).
  { intros Hi. unfold DatasetFolder.__getitem__.
    rewrite (proj2 (getitem_IndexError (DatasetFolder.samples ds) i) Hi).
    reflexivity. }
  assert (Hds_in : (- n <= i < n)%Z -> exists path target,
    DatasetFolder.samples ds !! Z.to_nat (i mod n) = Some (path, target) /\
    DatasetFolder.__getitem__ ds i =
      (s ← fetch (DatasetFolder.loader ds) (DatasetFolder.transform ds) path;
       Ok (s, target))).
  { intros Hi.
    destruct (Hlookup _ (DatasetFolder.samples ds) i Hi) as ([p t] & Hp & Eg).
    exists p, t. split; [exact Hp|]. apply DatasetFolder_getitem_eq, Eg. }
  assert (Himg_out : (i < - m \/ m <= i)%Z ->
    ImageFolder.__getitem__ img i = Raise IndexError).
  { intros Hi. unfold ImageFolder.__getitem__.
    rewrite (proj2 (getitem_IndexError (ImageFolder.samples img) i) Hi).
    reflexivity. }
  assert (Himg_in : (- m <= i < m)%Z -> exists path,
    ImageFolder.samples img !! Z.to_nat (i mod m) = Some path /\
    ImageFolder.__getitem__ img i =
      (s ← fetch (ImageFolder.loader img) (ImageFolder.transform img) path;
       Ok [s])).
  { intros Hi.
    destruct (Hlookup _ (ImageFolder.samples img) i Hi) as (p & Hp & Eg).
    exists p. split; [exact Hp|]. apply ImageFolder_getitem_eq, Eg. }
  repeat split; try assumption.
  - intros E. destruct (Z_lt_dec i (- n)); [lia|].
    destruct (Z_le_dec n i); [lia|]. exfalso.
    destruct Hds_in as (p & t & _ & Eg); [lia|]. rewrite Eg in E.
    specialize (H p). destruct (fetch _ _ p); simpl in E; congruence.
  - intros E. destruct (Z_lt_dec i (- m)); [lia|].
    destruct (Z_le_dec m i); [lia|]. exfalso.
    destruct Himg_in as (p & _ & Eg); [lia|]. rewrite Eg in E.
    specialize (H p). destruct (fetch _ _ p); simpl in E; congruence.
Qed.

Lemma getitem_index_error_witness :
  DatasetFolder.__getitem__ Fixtures.two_classes_dataset 3 = Raise IndexError
  /\ DatasetFolder.__getitem__ Fixtures.two_classes_dataset (-4)
     = Raise IndexError
  /\ exists path target,
       DatasetFolder.samples Fixtures.two_classes_dataset
         !! Z.to_nat (-3 mod 3) = Some (path, target).
Proof.
  pose (n := Z.of_nat (DatasetFolder.__len__ Fixtures.two_classes_dataset)).
  assert (H3 : (3 < - n \/ n <= 3)%Z) by (right; vm_compute; discriminate).
  assert (H4 : (-4 < - n \/ n <= -4)%Z) by (left; vm_compute; reflexivity).
  assert (Hin : (- n <= -3 < n)%Z)
    by (vm_compute; split; [discriminate|reflexivity]).
  split; [|split].
  - exact (proj1 (getitem_index_error Fixtures.two_classes_dataset
                    Fixtures.two_classes_images 3) H3).
  - exact (proj1 (getitem_index_error Fixtures.two_classes_dataset
                    Fixtures.two_classes_images (-4)) H4).
  - destruct (proj1 (proj2 (getitem_index_error Fixtures.two_classes_dataset
                    Fixtures.two_classes_images (-3))) Hin)
      as (path & target & Hp & _).
    exists path, target. exact Hp.
Defined.

(** ** The custom validity predicate *)

(** C2. The validity predicate never takes part: whatever the extensions
    argument is, two constructions that differ in [is_valid_file] only
    have the same outcome, the same error or the same object with its
    samples, targets, classes and [class_to_idx]. *)
Theorem is_valid_file_ignored {Sample} (os : OS Sample) (root : string)
    (loader : option (string -> result Sample))
    (extensions : option (list string))
    (transform : option (Sample -> result Sample))
    (pred1 pred2 : option (string -> result bool)) :
  DatasetFolder.__init__ os root loader extensions transform pred1
    = DatasetFolder.__init__ os root loader extensions transform pred2
  /\ ImageFolder.__init__ os root loader extensions transform pred1
    = ImageFolder.__init__ os root loader extensions transform pred2.
Proof.
  split.
  - rewrite !DatasetFolder_init_eq. reflexivity.
  - rewrite !ImageFolder_init_eq. reflexivity.
Qed.

(** A predicate that raises on every path changes nothing, while
    [make_dataset] called without extensions does consult it. *)
Example raising_predicate :
  DatasetFolder.__init__ (Fixtures.linux Fixtures.two_classes) "/tmp/x"
    None None None (Some (fun _ => Raise (Raised "corrupt")))
    = Ok Fixtures.two_classes_dataset
  /\ make_dataset (Fixtures.linux Fixtures.two_classes) "/tmp/x"
       (DatasetFolder.class_to_idx Fixtures.two_classes_dataset) None
       (Some (fun _ => Raise (Raised "corrupt")))
     = Raise (Raised "corrupt").
Proof. split; vm_compute; reflexivity. Qed.

(** ** Class discovery *)

Lemma index_dict_go (l : list string) (n a : nat) (d : gmap string nat) :
  a + n <= length l ->
  exists m,
    for_each (seq a n) (fun d i =>
      c ← getitem l (Z.of_nat i); Ok (<[c := i]> d)) d = Ok m
    /\ (forall c i, m !! c = Some i ->
          d !! c = Some i \/ (a <= i < a + n /\ l !! i = Some c))
    /\ (forall c, is_Some (d !! c) \/ (exists i, a <= i < a + n /\ l !! i = Some c)
          -> is_Some (m !! c)).
Proof.
  revert a d. induction n as [|n IH]; intros a d Hlen.
  - exists d. split; [reflexivity|]. split; [auto|].
    intros c [Hc|(i & Hi & _)]; [exact Hc|lia].
  - cbn [seq for_each].
    destruct (getitem_in_range l (Z.of_nat a)) as (c0 & Hc0 & Eg); [lia|].
    rewrite Nat2Z.id in Hc0. rewrite Eg. cbn [mbind result_bind].
    destruct (IH (S a) (<[c0 := a]> d)) as (m & Em & Hfrom & Hto); [lia|].
    exists m. split; [exact Em|]. split.
    + intros c i Hm. destruct (Hfrom c i Hm) as [Hd|[Hi Hl]].
      * destruct (decide (c0 = c)) as [->|Hne].
        -- rewrite lookup_insert_eq in Hd. injection Hd as <-.
           right. split; [lia|exact Hc0].
        -- rewrite lookup_insert_ne in Hd by exact Hne. left. exact Hd.
      * right. split; [lia|exact Hl].
    + intros c Hc. apply Hto.
      destruct (decide (c0 = c)) as [->|Hne].
      * left. rewrite lookup_insert_eq. eauto.
      * destruct Hc as [Hc|(i & Hi & Hl)].
        -- left. rewrite lookup_insert_ne by exact Hne. exact Hc.
        -- right. exists i. split; [|exact Hl].
           destruct (decide (i = a)) as [->|]; [congruence|lia].
Qed.

(** The dict built from the class list: every value is a position of its
    key, and every class is a key. *)
Lemma index_dict_spec (l : list string) :
  exists m, DatasetFolder.index_dict l = Ok m
    /\ (forall c i, m !! c = Some i -> l !! i = Some c)
    /\ (forall c, c ∈ l -> is_Some (m !! c)).
Proof.
  destruct (index_dict_go l (length l) 0 ∅) as (m & Em & Hfrom & Hto); [lia|].
  exists m. split; [exact Em|]. split.
  - intros c i Hm. destruct (Hfrom c i Hm) as [Hd|[_ Hl]]; [|exact Hl].
    rewrite lookup_empty in Hd. discriminate.
  - intros c Hc. apply Hto. right.
    apply list_elem_of_lookup in Hc as [i Hi]. exists i. split; [|exact Hi].
    apply lookup_lt_Some in Hi. lia.
Qed.

Lemma find_classes_eq {Sample} (os : OS Sample) (dir : string) :
  DatasetFolder._find_classes os dir =
  match listed_dirs os dir with
  | Ok names =>
      class_to_idx ← DatasetFolder.index_dict (sorted names);
      Ok (sorted names, class_to_idx)
  | Raise e => Raise e
  end.
Proof.
  unfold DatasetFolder._find_classes, listed_dirs.
  destruct (version_ge_35 os).
  - destruct (scandir os dir); reflexivity.
  - destruct (listdir os dir); reflexivity.
Qed.

Lemma listed_dirs_spec {Sample} (os : OS Sample) (dir : string)
    (names : list string) :
  listed_dirs os dir = Ok names ->
  forall c, c ∈ names <-> is_subdir os dir c.
Proof.
  unfold listed_dirs, is_subdir. destruct (version_ge_35 os).
  - destruct (scandir os dir) as [entries|]; [|discriminate].
    intros [= <-] c. rewrite list_elem_of_fmap. split.
    + intros ([c' b] & -> & Hin). apply list_elem_of_filter in Hin as [Hb Hin].
      simpl in Hb. subst b. eauto.
    + intros (entries' & [= <-] & Hin). exists (c, true).
      split; [reflexivity|]. apply list_elem_of_filter. split; [reflexivity|exact Hin].
  - destruct (listdir os dir) as [names'|]; [|discriminate].
    intros [= <-] c. rewrite list_elem_of_filter. split.
    + intros [Hd Hin]. eauto.
    + intros (names'' & [= <-] & Hin & Hd). tauto.
Qed.

(** C5. Where the system lists the entries of [dir] with distinct names,
    class discovery returns the names listed as directories and no others,
    in ascending string order, and [class_to_idx] sends each class to its
    position in that order, so it is a bijection between the classes and
    the positions below their number. A system that lists the same
    directories in another order gives the same result. *)
Theorem find_classes_spec {Sample} (os : OS Sample) (dir : string)
    (names : list string) :
  listed_dirs os dir = Ok names ->
  NoDup names ->
  exists classes class_to_idx,
    DatasetFolder._find_classes os dir = Ok (classes, class_to_idx)
    /\ (forall c, c ∈ classes <-> is_subdir os dir c)
    /\ classes ≡ₚ names
    /\ StronglySorted py_le classes
    /\ (forall c i, class_to_idx !! c = Some i <-> classes !! i = Some c)
    /\ (forall i, i < length classes <->
          exists c, class_to_idx !! c = Some i)
    /\ (forall Sample' (os' : OS Sample') (dir' : string) (names' : list string),
          listed_dirs os' dir' = Ok names' -> names' ≡ₚ names ->
          DatasetFolder._find_classes os' dir' = Ok (classes, class_to_idx)).
Proof.
  intros Hl Hnd.
  destruct (index_dict_spec (sorted names)) as (m & Em & Hfrom & Hto).
  assert (Hnd' : NoDup (sorted names)) by (rewrite sorted_Permutation; exact Hnd).
  assert (Hidx : forall c i, m !! c = Some i <-> sorted names !! i = Some c).
  { intros c i. split; [apply Hfrom|]. intros Hi.
    destruct (Hto c) as [i' Hi']; [eapply list_elem_of_lookup_2, Hi|].
    rewrite Hi'. f_equal.
    eapply NoDup_lookup; [exact Hnd'|apply Hfrom, Hi'|exact Hi]. }
  exists (sorted names), m. repeat split.
  - rewrite find_classes_eq, Hl, Em. reflexivity.
  - intros Hc. apply (listed_dirs_spec os dir names Hl), elem_of_sorted, Hc.
  - intros Hc. apply elem_of_sorted, (listed_dirs_spec os dir names Hl), Hc.
  - apply sorted_Permutation.
  - apply sorted_StronglySorted.
  - apply Hidx.
  - apply Hidx.
  - intros Hi. apply lookup_lt_is_Some_2 in Hi as [c Hc].
    exists c. apply Hidx, Hc.
  - intros [c Hc]. apply Hidx in Hc. eapply lookup_lt_Some, Hc.
  - intros Sample' os' dir' names' Hl' Hperm.
    rewrite find_classes_eq, Hl', (sorted_unique names' names Hperm), Em.
    reflexivity.
Qed.

Lemma find_classes_spec_witness :
  exists classes class_to_idx,
    DatasetFolder._find_classes (Fixtures.linux Fixtures.two_classes) "/tmp/x"
      = Ok (classes, class_to_idx)
    /\ classes ≡ₚ ["class1"; "class0"]
    /\ StronglySorted py_le classes.
Proof.
  assert (Hl : listed_dirs (Fixtures.linux Fixtures.two_classes) "/tmp/x"
               = Ok ["class1"; "class0"]) by reflexivity.
  assert (Hnd : NoDup ["class1"; "class0"])
    by (apply (bool_decide_unpack (NoDup _)); vm_compute; reflexivity).
  destruct (find_classes_spec _ _ _ Hl Hnd)
    as (classes & c2i & E & _ & HP & HS & _).
  exists classes, c2i. auto.
Defined.

(** ** Labels in ascending order *)

Lemma StronglySorted_lookup {A} (R : relation A) (l : list A) (i j : nat)
    (x y : A) :
  StronglySorted R l -> i < j -> l !! i = Some x -> l !! j = Some y -> R x y.
Proof.
  intros S. revert i j. induction S as [|a l S IH Ha]; intros i j Hij Hi Hj.
  - rewrite lookup_nil in Hi. discriminate.
  - destruct j as [|j]; [lia|]. destruct i as [|i]; simpl in *.
    + injection Hi as <-. rewrite Forall_forall in Ha. apply Ha.
      eapply list_elem_of_lookup_2, Hj.
    + eapply IH; [|exact Hi|exact Hj]. lia.
Qed.

Lemma StronglySorted_bind {A B} (R : relation A) (S : relation B)
    (g : A -> list B) (L : list A) :
  StronglySorted R L ->
  (forall k, k ∈ L -> StronglySorted S (g k)) ->
  (forall k1 k2 v1 v2, k1 ∈ L -> k2 ∈ L -> R k1 k2 ->
     v1 ∈ g k1 -> v2 ∈ g k2 -> S v1 v2) ->
  StronglySorted S (L ≫= g).
Proof.
  induction 1 as [|k L HL IH Hk]; intros Hin Hout.
  - constructor.
  - rewrite bind_cons. apply StronglySorted_app_2.
    + intros v1 v2 Hv1 Hv2. apply list_elem_of_bind in Hv2 as (k2 & Hv2 & Hk2).
      rewrite Forall_forall in Hk.
      apply (Hout k k2); auto; [left|right; exact Hk2].
    + apply Hin. left.
    + apply IH.
      * intros k' Hk'. apply Hin. right. exact Hk'.
      * intros k1 k2 v1 v2 H1 H2. apply Hout; right; assumption.
Qed.

Lemma StronglySorted_const (v : nat) (l : list nat) :
  Forall (eq v) l -> StronglySorted Nat.le l.
Proof.
  induction 1 as [|x l <- Hl IH]; constructor; [exact IH|].
  eapply Forall_impl; [exact Hl|]. intros y <-. reflexivity.
Qed.

Lemma class_scan_label {Sample} (os : OS Sample) (exts : list string)
    (dir : string) (c2i : gmap string nat) (target : string) (s : string * nat) :
  s ∈ class_scan os exts dir c2i target -> c2i !! target = Some s.2.
Proof.
  unfold class_scan. cbv zeta.
  destruct (isdir os _); [|intros Hs; inversion Hs].
  destruct (c2i !! target) as [idx|]; [|intros Hs; inversion Hs].
  intros Hs. apply list_elem_of_fmap in Hs as (p & -> & _). reflexivity.
Qed.

(** In a sorted class list, a later or equal name has a later or equal
    position under a dict that sends names to positions of theirs. *)
Lemma index_monotone (classes : list string) (c2i : gmap string nat)
    (k1 k2 : string) (i1 i2 : nat) :
  StronglySorted py_le classes ->
  (forall c i, c2i !! c = Some i -> classes !! i = Some c) ->
  py_le k1 k2 -> c2i !! k1 = Some i1 -> c2i !! k2 = Some i2 -> i1 <= i2.
Proof.
  intros S Hfrom Hle H1 H2.
  destruct (le_lt_dec i1 i2) as [|Hlt]; [assumption|].
  pose proof (StronglySorted_lookup _ _ _ _ _ _ S Hlt
                (Hfrom _ _ H2) (Hfrom _ _ H1)) as Hge.
  assert (k1 = k2) by (apply (anti_symm py_le); assumption).
  subst k2. rewrite H1 in H2. injection H2 as ->. lia.
Qed.

(** C10. In a constructed [DatasetFolder] the labels of [samples], and
    with them [targets], never decrease along the list: the samples come
    class by class, in the order of the class indices. *)
Theorem labels_nondecreasing {Sample} (os : OS Sample) (root : string)
    (loader : option (string -> result Sample))
    (extensions : option (list string))
    (transform : option (Sample -> result Sample))
    (is_valid_file : option (string -> result bool))
    (self : DatasetFolder.t Sample) :
  DatasetFolder.__init__ os root loader extensions transform is_valid_file
    = Ok self ->
  StronglySorted Nat.le (map snd (DatasetFolder.samples self))
  /\ StronglySorted Nat.le (DatasetFolder.targets self)
  /\ (forall i j s t,
        i <= j -> DatasetFolder.samples self !! i = Some s ->
        DatasetFolder.samples self !! j = Some t -> s.2 <= t.2).
Proof.
  rewrite DatasetFolder_init_eq, find_classes_eq. cbv zeta.
  destruct (listed_dirs os root) as [names|e]; [|discriminate].
  destruct (index_dict_spec (sorted names)) as (c2i & Em & Hfrom & _).
  rewrite Em. cbn [mbind result_bind].
  destruct (length _ =? 0)%nat; [discriminate|]. intros [= <-]. simpl.
  assert (HS : StronglySorted Nat.le
    (map snd (labelled_scan os (effective extensions) root c2i))).
  { unfold labelled_scan. rewrite map_bind.
    apply (StronglySorted_bind py_le).
    - apply sorted_StronglySorted.
    - intros k _. destruct (c2i !! k) as [idx|] eqn:Ek.
      + apply (StronglySorted_const idx), Forall_forall. intros v Hv.
        apply list_elem_of_fmap in Hv as (s & -> & Hs).
        apply class_scan_label in Hs. congruence.
      + destruct (class_scan _ _ _ _ k) as [|s l] eqn:Es; [constructor|].
        assert (Hs : s ∈ class_scan os (effective extensions) root c2i k)
          by (rewrite Es; left).
        apply class_scan_label in Hs. congruence.
    - intros k1 k2 v1 v2 _ _ Hle Hv1 Hv2.
      apply list_elem_of_fmap in Hv1 as (s1 & -> & Hs1).
      apply list_elem_of_fmap in Hv2 as (s2 & -> & Hs2).
      apply class_scan_label in Hs1, Hs2.
      exact (index_monotone _ _ _ _ _ _ (sorted_StronglySorted names)
               Hfrom Hle Hs1 Hs2). }
  split; [exact HS|]. split; [exact HS|].
  intros i j s t Hij Hi Hj.
  destruct (decide (i = j)) as [->|Hne]; [rewrite Hi in Hj; injection Hj as ->; lia|].
  apply (StronglySorted_lookup Nat.le _ i j _ _ HS); [lia| |].
  - rewrite list_lookup_fmap, Hi. reflexivity.
  - rewrite list_lookup_fmap, Hj. reflexivity.
Qed.

Lemma labels_nondecreasing_witness :
  StronglySorted Nat.le
    (map snd (DatasetFolder.samples Fixtures.two_classes_dataset)).
Proof.
  exact (proj1 (labels_nondecreasing (Fixtures.linux Fixtures.two_classes)
    "/tmp/x" None None None None Fixtures.two_classes_dataset
    ltac:(vm_compute; reflexivity))).
Defined.

(** ** The empty scan *)

Lemma elem_of_scan {Sample} (os : OS Sample) (exts : list string)
    (top p : string) :
  p ∈ scan os exts top <->
  exists root dirs fnames fname,
    (root, dirs, fnames) ∈ walk os top /\ fname ∈ fnames /\
    p = posixpath.join root fname /\ has_valid_extension p exts = true.
Proof.
  unfold scan, files_of. rewrite list_elem_of_bind. split.
  - intros ([[root dirs] fnames] & Hp & He). simpl in Hp.
    apply list_elem_of_filter in Hp as [Hv Hp].
    apply list_elem_of_fmap in Hp as (fname & -> & Hf).
    exists root, dirs, fnames, fname.
    split; [apply elem_of_sorted, He|].
    split; [apply elem_of_sorted, Hf|]. split; [reflexivity|exact Hv].
  - intros (root & dirs & fnames & fname & He & Hf & -> & Hv).
    exists (root, dirs, fnames). split; [|apply elem_of_sorted, He]. simpl.
    apply list_elem_of_filter. split; [exact Hv|].
    apply list_elem_of_fmap. exists fname.
    split; [reflexivity|apply elem_of_sorted, Hf].
Qed.

Lemma scan_match {Sample} (os : OS Sample) (exts : list string) (top : string) :
  has_match os exts top <-> scan os exts top <> [].
Proof.
  unfold has_match. split.
  - intros (root & dirs & fnames & fname & He & Hf & Hv) E.
    assert (Hin : posixpath.join root fname ∈ scan os exts top)
      by (apply elem_of_scan; eauto 10).
    rewrite E in Hin. inversion Hin.
  - intros Hne. destruct (scan os exts top) as [|p l] eqn:E; [congruence|].
    assert (Hin : p ∈ scan os exts top) by (rewrite E; left).
    apply elem_of_scan in Hin
      as (root & dirs & fnames & fname & He & Hf & -> & Hv).
    eauto 10.
Qed.

Lemma labelled_scan_match {Sample} (os : OS Sample) (exts : list string)
    (root : string) (names : list string) (c2i : gmap string nat) :
  listed_dirs os root = Ok names ->
  DatasetFolder.index_dict (sorted names) = Ok c2i ->
  class_has_match os exts root <-> labelled_scan os exts root c2i <> [].
Proof.
  intros Hl Em.
  destruct (index_dict_spec (sorted names)) as (m & Em' & Hfrom & Hto).
  rewrite Em in Em'. injection Em' as <-.
  assert (Hkeys : forall k, k ∈ sorted (keys c2i) <-> is_subdir os root k).
  { intros k. rewrite elem_of_sorted, elem_of_keys,
      <- (listed_dirs_spec os root names Hl k). split.
    - intros [i Hi]. apply elem_of_sorted.
      eapply list_elem_of_lookup_2, Hfrom, Hi.
    - intros Hk. apply Hto, elem_of_sorted, Hk. }
  unfold class_has_match. split.
  - intros (c & Hc & Hd & Hm) E.
    apply scan_match in Hm.
    destruct (scan os exts (posixpath.join (expanduser os root) c))
      as [|p l] eqn:Es; [congruence|].
    pose proof (proj2 (Hkeys c) Hc) as Hin.
    destruct (proj1 (elem_of_keys c2i c) (proj1 (elem_of_sorted _ _) Hin))
      as [idx Hidx].
    assert (Hs : (p, idx) ∈ labelled_scan os exts root c2i).
    { unfold labelled_scan. apply list_elem_of_bind. exists c.
      split; [|exact Hin]. unfold class_scan. cbv zeta.
      rewrite Hd, Hidx, Es. left. }
    rewrite E in Hs. inversion Hs.
  - intros Hne. destruct (labelled_scan os exts root c2i) as [|s l] eqn:E;
      [congruence|].
    assert (Hin : s ∈ labelled_scan os exts root c2i) by (rewrite E; left).
    unfold labelled_scan in Hin.
    apply list_elem_of_bind in Hin as (c & Hs & Hc).
    exists c. split; [apply Hkeys, Hc|].
    unfold class_scan in Hs. cbv zeta in Hs.
    destruct (isdir os _) eqn:Ed; [|inversion Hs]. split; [reflexivity|].
    destruct (c2i !! c); [|inversion Hs].
    apply list_elem_of_fmap in Hs as (p & _ & Hp).
    apply scan_match. intros Es. rewrite Es in Hp. inversion Hp.
Qed.

(** The "Found 0 files ..." error. [ImageFolder] raises it exactly when
    the scan finds no file that the extensions in force accept, and builds
    the object as soon as one file is accepted; the message holds the root
    as given and the extensions in force, joined by commas. [DatasetFolder]
    does the same only where the listing of the root as given succeeds; an
    error of that listing comes first and is passed on as it is. *)
Theorem found_0_files_error {Sample} (os : OS Sample) (root : string)
    (loader : option (string -> result Sample))
    (extensions : option (list string))
    (transform : option (Sample -> result Sample))
    (is_valid_file : option (string -> result bool)) :
  let exts := effective extensions in
  let image := ImageFolder.__init__ os root loader extensions transform
                 is_valid_file in
  let dataset := DatasetFolder.__init__ os root loader extensions transform
                   is_valid_file in
  (~ has_match os exts (expanduser os root) <->
     image = Raise (RuntimeError (found_0_files root exts)))
  /\ (has_match os exts (expanduser os root) <-> exists img, image = Ok img)
  /\ (forall names, listed_dirs os root = Ok names ->
        (~ class_has_match os exts root <->
           dataset = Raise (RuntimeError (found_0_files root exts)))
        /\ (class_has_match os exts root <-> exists ds, dataset = Ok ds))
  /\ (forall e, listed_dirs os root = Raise e -> dataset = Raise e)
  /\ found_0_files root exts =
       "Found 0 files in subfolders of: " +:+ root +:+ String "010"
         ("Supported extensions are: " +:+ str_join "," exts).
Proof.
  intros exts image dataset. subst image dataset.
  rewrite ImageFolder_init_eq, DatasetFolder_init_eq, find_classes_eq.
  cbv zeta. fold exts.
  split; [|split; [|split; [|split]]].
  - rewrite scan_match.
    destruct (scan os exts (expanduser os root)); simpl;
      intuition congruence.
  - rewrite scan_match.
    destruct (scan os exts (expanduser os root)); simpl; split;
      try congruence; eauto.
    intros [img E]. discriminate.
  - intros names Hl. rewrite Hl.
    destruct (index_dict_spec (sorted names)) as (c2i & Em & _).
    rewrite Em. cbn [mbind result_bind].
    rewrite (labelled_scan_match os exts root names c2i Hl Em).
    destruct (labelled_scan os exts root c2i); simpl; split; split;
      try (intuition congruence); eauto.
    intros [ds E]. discriminate.
  - intros e Hl. rewrite Hl. reflexivity.
  - reflexivity.
Qed.

Lemma found_0_files_error_witness :
  ~ has_match (Fixtures.linux Fixtures.only_text) IMG_EXTENSIONS "/tmp/x"
  /\ has_match (Fixtures.linux Fixtures.two_classes) IMG_EXTENSIONS "/tmp/x"
  /\ class_has_match (Fixtures.linux Fixtures.two_classes) IMG_EXTENSIONS
       "/tmp/x".
Proof.
  split; [|split].
  - apply (found_0_files_error (Fixtures.linux Fixtures.only_text) "/tmp/x"
             None None None None).
    vm_compute. reflexivity.
  - apply (found_0_files_error (Fixtures.linux Fixtures.two_classes) "/tmp/x"
             None None None None).
    exists Fixtures.two_classes_images. vm_compute. reflexivity.
  - apply (proj1 (proj2 (proj2 (found_0_files_error
             (Fixtures.linux Fixtures.two_classes) "/tmp/x"
             None None None None))) ["class1"; "class0"] eq_refl).
    exists Fixtures.two_classes_dataset. vm_compute. reflexivity.
Defined.

Example only_text_fails :
  DatasetFolder.__init__ (Fixtures.linux Fixtures.only_text) "/tmp/x"
    None None None None
  = Raise (RuntimeError (found_0_files "/tmp/x" IMG_EXTENSIONS))
  /\ ImageFolder.__init__ (Fixtures.linux Fixtures.only_text) "/tmp/x"
    None None None None
  = Raise (RuntimeError (found_0_files "/tmp/x" IMG_EXTENSIONS))
  /\ DatasetFolder.__init__ (Fixtures.linux Fixtures.only_text) "/nowhere"
    None None None None
  = Raise (OSError "/nowhere").
Proof. repeat split; vm_compute; reflexivity. Qed.

(** ** The order of the samples *)

Ltac reassoc :=
  repeat first [rewrite <- app_assoc | rewrite <- app_comm_cons]; reflexivity.

Lemma before_app_l {A} (x y : A) (l k : list A) :
  before x y l -> before x y (k ++ l).
Proof. intros (l1 & l2 & l3 & ->). exists (k ++ l1), l2, l3. reassoc. Qed.

Lemma before_app_r {A} (x y : A) (l k : list A) :
  before x y l -> before x y (l ++ k).
Proof. intros (l1 & l2 & l3 & ->). exists l1, l2, (l3 ++ k). reassoc. Qed.

Lemma before_split {A} (x y : A) (l m k : list A) :
  x ∈ l -> y ∈ k -> before x y (l ++ m ++ k).
Proof.
  intros Hx Hy. apply list_elem_of_split in Hx as (l1 & l2 & ->).
  apply list_elem_of_split in Hy as (k1 & k2 & ->).
  exists l1, (l2 ++ m ++ k1), k2. reassoc.
Qed.

Lemma before_map {A B} (f : A -> B) (x y : A) (l : list A) :
  before x y l -> before (f x) (f y) (map f l).
Proof.
  intros (l1 & l2 & l3 & ->). exists (map f l1), (map f l2), (map f l3).
  rewrite !map_app. simpl. rewrite !map_app. reflexivity.
Qed.

Lemma before_filter {A} (P : A -> Prop) `{forall x, Decision (P x)}
    (x y : A) (l : list A) :
  P x -> P y -> before x y l -> before x y (filter P l).
Proof.
  intros Hx Hy (l1 & l2 & l3 & ->).
  exists (filter P l1), (filter P l2), (filter P l3).
  rewrite filter_app, filter_cons_True, filter_app, filter_cons_True by assumption.
  reflexivity.
Qed.

Lemma before_bind_same {A B} (g : A -> list B) (e : A) (x y : B) (L : list A) :
  e ∈ L -> before x y (g e) -> before x y (L ≫= g).
Proof.
  intros He Hb. apply list_elem_of_split in He as (L1 & L2 & ->).
  rewrite bind_app, bind_cons. apply before_app_l, before_app_r, Hb.
Qed.

Lemma before_bind_diff {A B} (g : A -> list B) (e1 e2 : A) (x y : B)
    (L : list A) :
  before e1 e2 L -> x ∈ g e1 -> y ∈ g e2 -> before x y (L ≫= g).
Proof.
  intros (L1 & L2 & L3 & ->) Hx Hy.
  rewrite bind_app, bind_cons, bind_app, bind_cons.
  apply before_app_l. rewrite !app_assoc. apply before_app_r.
  rewrite <- app_assoc. apply before_split; assumption.
Qed.

Lemma py_lt_tuple_fst {A B} `{CmpLaws A, CmpLaws B} (a a' : A) (b b' : B) :
  py_lt a a' -> py_lt (a, b) (a', b').
Proof.
  unfold py_lt. rewrite cmp_tuple_unfold. simpl. intros ->. reflexivity.
Qed.

Lemma elem_of_files_of (exts : list string)
    (e : string * list string * list string) (n : string) :
  n ∈ e.2 -> has_valid_extension (posixpath.join e.1.1 n) exts = true ->
  posixpath.join e.1.1 n ∈ files_of exts e.
Proof.
  intros Hn Hv. unfold files_of. apply list_elem_of_filter. split; [exact Hv|].
  apply list_elem_of_fmap. exists n. split; [reflexivity|].
  apply elem_of_sorted, Hn.
Qed.

(** Among the samples of one walk: the files of a directory stand in the
    order of their names, and the files of a directory whose walk tuple
    is smaller stand before those of a directory whose tuple is larger. *)
Lemma scan_before {Sample} (os : OS Sample) (exts : list string) (top : string)
    (e1 e2 : string * list string * list string) (n1 n2 : string) :
  e1 ∈ walk os top -> e2 ∈ walk os top -> n1 ∈ e1.2 -> n2 ∈ e2.2 ->
  has_valid_extension (posixpath.join e1.1.1 n1) exts = true ->
  has_valid_extension (posixpath.join e2.1.1 n2) exts = true ->
  py_lt e1 e2 \/ (e1 = e2 /\ py_lt n1 n2) ->
  before (posixpath.join e1.1.1 n1) (posixpath.join e2.1.1 n2)
         (scan os exts top).
Proof.
  intros He1 He2 Hn1 Hn2 Hv1 Hv2 [Hlt|[<- Hlt]]; unfold scan.
  - apply (before_bind_diff _ e1 e2).
    + apply sorted_before; assumption.
    + apply elem_of_files_of; assumption.
    + apply elem_of_files_of; assumption.
  - apply (before_bind_same _ e1); [apply elem_of_sorted, He1|].
    unfold files_of. apply before_filter; [assumption..|].
    apply before_map, sorted_before; assumption.
Qed.

(** C9, as the code has it. The string ["1.jpg"] is smaller than
    ["10.jpg"]. In the samples of either constructor, two accepted files
    of one directory stand in the order of their names, and the accepted
    files of a directory stand before those of every directory of the
    same walk whose full path is a larger string: the walk tuples are
    sorted as a whole, by directory path. *)
Theorem scan_order {Sample} (os : OS Sample) (root : string)
    (loader : option (string -> result Sample))
    (extensions : option (list string))
    (transform : option (Sample -> result Sample))
    (is_valid_file : option (string -> result bool)) :
  let exts := effective extensions in
  let top := expanduser os root in
  py_lt "1.jpg" "10.jpg"
  /\ (forall img r1 d1 f1 r2 d2 f2 n1 n2,
        ImageFolder.__init__ os root loader extensions transform is_valid_file
          = Ok img ->
        (r1, d1, f1) ∈ walk os top -> (r2, d2, f2) ∈ walk os top ->
        n1 ∈ f1 -> n2 ∈ f2 ->
        has_valid_extension (posixpath.join r1 n1) exts = true ->
        has_valid_extension (posixpath.join r2 n2) exts = true ->
        py_lt r1 r2 \/ ((r1, d1, f1) = (r2, d2, f2) /\ py_lt n1 n2) ->
        before (posixpath.join r1 n1) (posixpath.join r2 n2)
               (ImageFolder.samples img))
  /\ (forall ds c idx r1 d1 f1 r2 d2 f2 n1 n2,
        DatasetFolder.__init__ os root loader extensions transform is_valid_file
          = Ok ds ->
        DatasetFolder.class_to_idx ds !! c = Some idx ->
        isdir os (posixpath.join top c) = true ->
        (r1, d1, f1) ∈ walk os (posixpath.join top c) ->
        (r2, d2, f2) ∈ walk os (posixpath.join top c) ->
        n1 ∈ f1 -> n2 ∈ f2 ->
        has_valid_extension (posixpath.join r1 n1) exts = true ->
        has_valid_extension (posixpath.join r2 n2) exts = true ->
        py_lt r1 r2 \/ ((r1, d1, f1) = (r2, d2, f2) /\ py_lt n1 n2) ->
        before (posixpath.join r1 n1, idx) (posixpath.join r2 n2, idx)
               (DatasetFolder.samples ds)).
Proof.
  intros exts top.
  assert (Hscan : forall d r1 d1 f1 r2 d2 f2 n1 n2,
    (r1, d1, f1) ∈ walk os d -> (r2, d2, f2) ∈ walk os d ->
    n1 ∈ f1 -> n2 ∈ f2 ->
    has_valid_extension (posixpath.join r1 n1) exts = true ->
    has_valid_extension (posixpath.join r2 n2) exts = true ->
    py_lt r1 r2 \/ ((r1, d1, f1) = (r2, d2, f2) /\ py_lt n1 n2) ->
    before (posixpath.join r1 n1) (posixpath.join r2 n2) (scan os exts d)).
  { intros d r1 d1 f1 r2 d2 f2 n1 n2 He1 He2 Hn1 Hn2 Hv1 Hv2 Hlt.
    apply (scan_before os exts d (r1, d1, f1) (r2, d2, f2) n1 n2);
      try assumption.
    destruct Hlt as [Hlt|Hlt]; [left|right; exact Hlt].
    apply py_lt_tuple_fst, py_lt_tuple_fst, Hlt. }
  split; [reflexivity|]. split.
  - intros img r1 d1 f1 r2 d2 f2 n1 n2.
    rewrite ImageFolder_init_eq. cbv zeta.
    destruct (length _ =? 0)%nat; [discriminate|]. intros [= <-]. simpl.
    apply Hscan.
  - intros ds c idx r1 d1 f1 r2 d2 f2 n1 n2.
    rewrite DatasetFolder_init_eq. cbv zeta.
    destruct (DatasetFolder._find_classes os root) as [[classes c2i]|e];
      [|discriminate].
    destruct (length _ =? 0)%nat; [discriminate|]. intros [= <-]. simpl.
    intros Hidx Hd He1 He2 Hn1 Hn2 Hv1 Hv2 Hlt.
    unfold labelled_scan. apply (before_bind_same _ c).
    + apply elem_of_sorted, elem_of_keys. eauto.
    + unfold class_scan. cbv zeta. fold top. rewrite Hd, Hidx.
      apply (before_map (fun p => (p, idx))).
      apply (Hscan _ r1 d1 f1 r2 d2 f2); assumption.
Qed.

Lemma scan_order_witness :
  before ("/tmp/x/cls/1.jpg", 0) ("/tmp/x/cls/10.jpg", 0)
    [("/tmp/x/cls/1.jpg", 0); ("/tmp/x/cls/10.jpg", 0)].
Proof.
  pose (ds := {|
    DatasetFolder.root := "/tmp/x";
    DatasetFolder.transform := None;
    DatasetFolder.loader := cv2_loader (Fixtures.linux Fixtures.numbered);
    DatasetFolder.extensions := IMG_EXTENSIONS;
    DatasetFolder.classes := ["cls"];
    DatasetFolder.class_to_idx := <["cls" := 0]> ∅;
    DatasetFolder.samples :=
      [("/tmp/x/cls/1.jpg", 0); ("/tmp/x/cls/10.jpg", 0)];
    DatasetFolder.targets := [0; 0] |}).
  refine (proj2 (proj2 (scan_order (Fixtures.linux Fixtures.numbered) "/tmp/x"
    None None None None)) ds "cls" 0
    "/tmp/x/cls" [] ["10.jpg"; "1.jpg"] "/tmp/x/cls" [] ["10.jpg"; "1.jpg"]
    "1.jpg" "10.jpg" _ _ _ _ _ _ _ _ _ _).
  - vm_compute. reflexivity.
  - vm_compute. reflexivity.
  - reflexivity.
  - vm_compute. left.
  - vm_compute. left.
  - right. left.
  - left.
  - reflexivity.
  - reflexivity.
  - right. split; reflexivity.
Defined.

(** The directory [c] of the fixture [dashed] holds [a/b/x.jpg] and
    [a-c/y.jpg], and ["a"] is smaller than ["a-c"]. A walk that descends
    into the subdirectories in sorted order takes [x.jpg] first. The code
    takes [y.jpg] first, because ["/tmp/x/c/a-c"] is smaller than
    ["/tmp/x/c/a/b"]. *)
Lemma walk_order_is_not_sorted_recursion :
  py_lt "a" "a-c"
  /\ Spec.collect (fun p => has_valid_extension p IMG_EXTENSIONS)
       "/tmp/x" Fixtures.dashed
     = ["/tmp/x/c/a/b/x.jpg"; "/tmp/x/c/a-c/y.jpg"]
  /\ (img ← ImageFolder.__init__ (Fixtures.linux Fixtures.dashed) "/tmp/x"
             None None None None;
      Ok (ImageFolder.samples img))
     = Ok ["/tmp/x/c/a-c/y.jpg"; "/tmp/x/c/a/b/x.jpg"]
  /\ (ds ← DatasetFolder.__init__ (Fixtures.linux Fixtures.dashed) "/tmp/x"
            None None None None;
      Ok (DatasetFolder.samples ds))
     = Ok [("/tmp/x/c/a-c/y.jpg", 0); ("/tmp/x/c/a/b/x.jpg", 0)]
  /\ ~ before "/tmp/x/c/a/b/x.jpg" "/tmp/x/c/a-c/y.jpg"
         ["/tmp/x/c/a-c/y.jpg"; "/tmp/x/c/a/b/x.jpg"].
Proof.
  split; [reflexivity|]. split; [vm_compute; reflexivity|].
  split; [vm_compute; reflexivity|]. split; [vm_compute; reflexivity|].
  intros (l1 & l2 & l3 & E).
  destruct l1 as [|a l1].
  - simpl in E. injection E as E _. discriminate E.
  - apply (f_equal length) in E. simpl in E.
    rewrite length_app in E. simpl in E. rewrite length_app in E.
    simpl in E. lia.
Qed.

(** * Further properties of the scans *)

(** ** The loops of [make_dataset] as one loop *)

Lemma for_each_ext {A S} (xs : list A) (f g : S -> A -> result S) (s : S) :
  (forall x s, x ∈ xs -> f s x = g s x) -> for_each xs f s = for_each xs g s.
Proof.
  revert s. induction xs as [|x xs IH]; intros s Hfg; simpl; [reflexivity|].
  rewrite (Hfg x s) by left. destruct (g s x) as [s'|e]; simpl; [|reflexivity].
  apply IH. intros y t Hy. apply Hfg. right. exact Hy.
Qed.

Lemma for_each_app {A S} (xs ys : list A) (f : S -> A -> result S) (s : S) :
  for_each (xs ++ ys) f s = s' ← for_each xs f s; for_each ys f s'.
Proof.
  revert s. induction xs as [|x xs IH]; intros s; simpl; [reflexivity|].
  destruct (f s x) as [s'|e]; simpl; [apply IH|reflexivity].
Qed.

Lemma for_each_bind {A B S} (xs : list A) (g : A -> list B)
    (f : S -> B -> result S) (s : S) :
  for_each (xs ≫= g) f s = for_each xs (fun s x => for_each (g x) f s) s.
Proof.
  revert s. induction xs as [|x xs IH]; intros s; [reflexivity|].
  rewrite bind_cons, for_each_app. cbn [for_each].
  destruct (for_each (g x) f s) as [s'|e]; simpl; [apply IH|reflexivity].
Qed.

Lemma for_each_map {A B S} (xs : list A) (h : A -> B)
    (f : S -> B -> result S) (s : S) :
  for_each (map h xs) f s = for_each xs (fun s x => f s (h x)) s.
Proof.
  revert s. induction xs as [|x xs IH]; intros s; simpl; [reflexivity|].
  destruct (f s (h x)) as [s'|e]; simpl; [apply IH|reflexivity].
Qed.

(** [make_dataset] runs the test [keep] over the candidates in order. *)
Lemma make_dataset_flat {Sample} (os : OS Sample) (dir : string)
    (class_to_idx : gmap string nat) (extensions : option (list string))
    (is_valid_file : option (string -> result bool)) :
  make_dataset os dir class_to_idx extensions is_valid_file =
  for_each (candidates os dir class_to_idx)
    (keep match extensions with
          | Some exts => Some (fun x => Ok (has_valid_extension x exts))
          | None => is_valid_file
          end class_to_idx) [].
Proof.
  unfold make_dataset, candidates. cbv zeta. rewrite for_each_bind.
  apply for_each_ext. intros target s _.
  destruct (isdir os _); simpl; [|reflexivity].
  rewrite for_each_map. unfold visited. rewrite for_each_bind.
  apply for_each_ext. intros [[root dirs] fnames] s' _.
  rewrite for_each_map. reflexivity.
Qed.

Lemma elem_of_candidates {Sample} (os : OS Sample) (dir : string)
    (class_to_idx : gmap string nat) (path target : string) :
  (path, target) ∈ candidates os dir class_to_idx <->
  (exists idx, class_to_idx !! target = Some idx)
  /\ isdir os (posixpath.join (expanduser os dir) target) = true
  /\ path ∈ visited os (posixpath.join (expanduser os dir) target).
Proof.
  unfold candidates. rewrite list_elem_of_bind. split.
  - intros (c & Hin & Hc). apply elem_of_sorted, elem_of_keys in Hc.
    cbv zeta in Hin. destruct (isdir os _) eqn:Ed; [|inversion Hin].
    apply list_elem_of_fmap in Hin as (p & [= -> ->] & Hp). auto.
  - intros (Hidx & Hd & Hp). exists target.
    split; [|apply elem_of_sorted, elem_of_keys, Hidx].
    cbv zeta. rewrite Hd. apply list_elem_of_fmap. eauto.
Qed.

Lemma keep_ok (pred : string -> result bool) (c2i : gmap string nat)
    (acc : list (string * nat)) (it : string * string) (b : bool) (idx : nat) :
  pred it.1 = Ok b -> c2i !! it.2 = Some idx ->
  keep (Some pred) c2i acc it = Ok (if b then acc ++ [(it.1, idx)] else acc).
Proof.
  intros Hb Hidx. unfold keep, call, dict_getitem. rewrite Hb, Hidx.
  destruct b; reflexivity.
Qed.

Lemma keep_raise (pred : string -> result bool) (c2i : gmap string nat)
    (acc : list (string * nat)) (it : string * string) (e : exn) :
  pred it.1 = Raise e -> keep (Some pred) c2i acc it = Raise e.
Proof. intros He. unfold keep, call. rewrite He. reflexivity. Qed.

Lemma keep_loop (pred : string -> result bool) (p : string -> bool)
    (c2i : gmap string nat) (cs : list (string * string))
    (acc : list (string * nat)) :
  (forall it, it ∈ cs -> pred it.1 = Ok (p it.1)) ->
  (forall it, it ∈ cs -> is_Some (c2i !! it.2)) ->
  for_each cs (keep (Some pred) c2i) acc =
  Ok (acc ++ omap (fun it =>
        if p it.1 then (fun idx => (it.1, idx)) <$> c2i !! it.2 else None) cs).
Proof.
  revert acc. induction cs as [|it cs IH]; intros acc Hp Hk.
  - simpl. rewrite app_nil_r. reflexivity.
  - cbn [for_each omap list_omap].
    destruct (Hk it) as [idx Hidx]; [left|].
    rewrite (keep_ok pred c2i acc it (p it.1) idx (Hp it ltac:(left)) Hidx).
    cbn [mbind result_bind].
    assert (Hp' : forall it', it' ∈ cs -> pred it'.1 = Ok (p it'.1))
      by (intros; apply Hp; right; assumption).
    assert (Hk' : forall it', it' ∈ cs -> is_Some (c2i !! it'.2))
      by (intros; apply Hk; right; assumption).
    rewrite (IH _ Hp' Hk'), Hidx. destruct (p it.1); simpl.
    + rewrite <- app_assoc. reflexivity.
    + reflexivity.
Qed.

(** X1. Called without extensions, [make_dataset] filters by the validity
    predicate: where the predicate answers on every candidate file, the
    result lists, in the order of the walk, the files it accepts, each with
    the index of its class. *)
Theorem make_dataset_predicate {Sample} (os : OS Sample) (dir : string)
    (class_to_idx : gmap string nat) (pred : string -> result bool)
    (p : string -> bool) :
  (forall path target, (path, target) ∈ candidates os dir class_to_idx ->
     pred path = Ok (p path)) ->
  exists images,
    make_dataset os dir class_to_idx None (Some pred) = Ok images
    /\ images = omap (fun it =>
         if p it.1 then (fun idx => (it.1, idx)) <$> class_to_idx !! it.2
         else None) (candidates os dir class_to_idx)
    /\ (forall path idx, (path, idx) ∈ images <->
          p path = true /\
          exists target, (path, target) ∈ candidates os dir class_to_idx
                         /\ class_to_idx !! target = Some idx).
Proof.
  intros Hpred. eexists. split; [|split; [reflexivity|]].
  - rewrite make_dataset_flat. rewrite (keep_loop pred p).
    + reflexivity.
    + intros [path target] Hin. apply (Hpred path target Hin).
    + intros [path target] Hin. apply elem_of_candidates in Hin as [Hidx _].
      exact Hidx.
  - intros path idx. rewrite list_elem_of_omap. split.
    + intros ([path' target] & Hin & Hsome). simpl in Hsome.
      destruct (p path') eqn:Ep; [|discriminate].
      destruct (class_to_idx !! target) as [idx'|] eqn:Ei; [|discriminate].
      injection Hsome as <- <-. eauto.
    + intros (Ep & target & Hin & Hidx). exists (path, target).
      split; [exact Hin|]. simpl. rewrite Ep, Hidx. reflexivity.
Qed.

Lemma make_dataset_predicate_witness :
  make_dataset (Fixtures.linux Fixtures.two_classes) "/tmp/x"
    (<["class1" := 1]> (<["class0" := 0]> ∅)) None
    (Some (fun x => Ok (str_endswith x ".png")))
  = Ok [("/tmp/x/class0/b.png", 0)].
Proof.
  destruct (make_dataset_predicate (Fixtures.linux Fixtures.two_classes)
    "/tmp/x" (<["class1" := 1]> (<["class0" := 0]> ∅))
    (fun x => Ok (str_endswith x ".png")) (fun x => str_endswith x ".png"))
    as (images & E & -> & _).
  - intros path target _. reflexivity.
  - rewrite E. vm_compute. reflexivity.
Defined.

(** X2. Called with neither extensions nor a predicate, [make_dataset]
    raises [TypeError] as soon as one class directory holds a file at any
    depth, because it calls [None]; it returns the empty list only when
    there is no file to test. *)
Theorem make_dataset_without_filter {Sample} (os : OS Sample) (dir : string)
    (class_to_idx : gmap string nat) :
  (make_dataset os dir class_to_idx None None = Raise TypeError <->
     exists path target, (path, target) ∈ candidates os dir class_to_idx)
  /\ (make_dataset os dir class_to_idx None None = Ok [] <->
     candidates os dir class_to_idx = []).
Proof.
  rewrite make_dataset_flat.
  destruct (candidates os dir class_to_idx) as [|[path target] cs]; simpl.
  - split; split; try reflexivity; try discriminate.
    intros (path & target & Hin). inversion Hin.
  - split; split; try reflexivity; try discriminate.
    intros _. exists path, target. left.
Qed.

Lemma keep_prefix (pred : string -> result bool) (c2i : gmap string nat)
    (cs : list (string * string)) (acc : list (string * nat)) :
  (forall it, it ∈ cs -> exists b, pred it.1 = Ok b) ->
  (forall it, it ∈ cs -> is_Some (c2i !! it.2)) ->
  exists acc', for_each cs (keep (Some pred) c2i) acc = Ok acc'.
Proof.
  revert acc. induction cs as [|it cs IH]; intros acc Hp Hk.
  - exists acc. reflexivity.
  - cbn [for_each].
    destruct (Hp it) as [b Hb]; [left|].
    destruct (Hk it) as [idx Hidx]; [left|].
    rewrite (keep_ok pred c2i acc it b idx Hb Hidx). cbn [mbind result_bind].
    apply IH; intros it' Hin; (apply Hp || apply Hk); right; exact Hin.
Qed.

(** X3. An exception of the validity predicate ends [make_dataset]: if the
    predicate answers on the candidates before some file and raises on
    that file, [make_dataset] raises the same exception, and the files
    accepted so far are lost. *)
Theorem make_dataset_predicate_raises {Sample} (os : OS Sample) (dir : string)
    (class_to_idx : gmap string nat) (pred : string -> result bool)
    (passed : list (string * string)) (item : string * string)
    (rest : list (string * string)) (e : exn) :
  candidates os dir class_to_idx = passed ++ item :: rest ->
  (forall it, it ∈ passed -> exists b, pred it.1 = Ok b) ->
  pred item.1 = Raise e ->
  make_dataset os dir class_to_idx None (Some pred) = Raise e.
Proof.
  intros Hc Hdone He. rewrite make_dataset_flat, Hc, for_each_app.
  destruct (keep_prefix pred class_to_idx passed [] Hdone) as [acc Hacc].
  - intros [path target] Hin.
    assert (Hin' : (path, target) ∈ candidates os dir class_to_idx)
      by (rewrite Hc; apply elem_of_app; left; exact Hin).
    apply elem_of_candidates in Hin' as [Hidx _]. exact Hidx.
  - rewrite Hacc. cbn [mbind result_bind for_each].
    rewrite (keep_raise pred class_to_idx acc item e He). reflexivity.
Qed.

Lemma make_dataset_predicate_raises_witness :
  make_dataset (Fixtures.linux Fixtures.two_classes) "/tmp/x"
    (<["class1" := 1]> (<["class0" := 0]> ∅)) None
    (Some (fun x => if str_endswith x ".png" then Raise (Raised "corrupt")
                    else Ok true))
  = Raise (Raised "corrupt").
Proof.
  apply (make_dataset_predicate_raises (Fixtures.linux Fixtures.two_classes)
    "/tmp/x" (<["class1" := 1]> (<["class0" := 0]> ∅)) _
    [("/tmp/x/class0/a.jpg", "class0")] ("/tmp/x/class0/b.png", "class0")
    [("/tmp/x/class1/c.jpg", "class1")]).
  - vm_compute. reflexivity.
  - intros it Hin. apply list_elem_of_singleton in Hin as ->.
    exists true. reflexivity.
  - reflexivity.
Defined.

(** ** What a constructed object holds *)

(** X4. A constructed object is never empty: [__len__] is at least one,
    so the indices [0] and [-1] always reach a sample of the list. *)
Theorem constructed_nonempty {Sample} (os : OS Sample) (root : string)
    (loader : option (string -> result Sample))
    (extensions : option (list string))
    (transform : option (Sample -> result Sample))
    (is_valid_file : option (string -> result bool)) :
  (forall ds,
     DatasetFolder.__init__ os root loader extensions transform is_valid_file
       = Ok ds ->
     1 <= DatasetFolder.__len__ ds
     /\ (exists s, getitem (DatasetFolder.samples ds) 0 = Ok s)
     /\ (exists s, getitem (DatasetFolder.samples ds) (-1) = Ok s))
  /\ (forall img,
     ImageFolder.__init__ os root loader extensions transform is_valid_file
       = Ok img ->
     1 <= ImageFolder.__len__ img
     /\ (exists s, getitem (ImageFolder.samples img) 0 = Ok s)
     /\ (exists s, getitem (ImageFolder.samples img) (-1) = Ok s)).
Proof.
  assert (Hget : forall {A} (l : list A), 1 <= length l ->
    (exists s, getitem l 0 = Ok s) /\ (exists s, getitem l (-1) = Ok s)).
  { intros A l Hl. split.
    - destruct (getitem_in_range l 0) as (x & _ & E); [lia|eauto].
    - rewrite getitem_negative by lia.
      destruct (getitem_in_range l (-1 + Z.of_nat (length l)))
        as (x & _ & E); [lia|eauto]. }
  split.
  - intros ds. rewrite DatasetFolder_init_eq. cbv zeta.
    destruct (DatasetFolder._find_classes os root) as [[classes c2i]|e];
      [|discriminate].
    destruct (labelled_scan _ _ _ _) as [|s l] eqn:E; simpl; [discriminate|].
    intros [= <-]. unfold DatasetFolder.__len__. simpl.
    split; [lia|]. apply Hget. simpl. lia.
  - intros img. rewrite ImageFolder_init_eq. cbv zeta.
    destruct (scan _ _ _) as [|s l] eqn:E; simpl; [discriminate|].
    intros [= <-]. unfold ImageFolder.__len__. simpl.
    split; [lia|]. apply Hget. simpl. lia.
Qed.

Lemma constructed_nonempty_witness :
  1 <= DatasetFolder.__len__ Fixtures.two_classes_dataset
  /\ 1 <= ImageFolder.__len__ Fixtures.two_classes_images.
Proof.
  pose proof (constructed_nonempty (Fixtures.linux Fixtures.two_classes)
    "/tmp/x" None None None None) as [Hds Himg].
  split.
  - apply (Hds Fixtures.two_classes_dataset). vm_compute. reflexivity.
  - apply (Himg Fixtures.two_classes_images). vm_compute. reflexivity.
Defined.

Lemma scan_filter_visited {Sample} (os : OS Sample) (exts : list string)
    (top : string) :
  scan os exts top
  = filter (fun p => has_valid_extension p exts = true) (visited os top).
Proof.
  unfold scan, visited. induction (sorted (walk os top)) as [|e W IH].
  - reflexivity.
  - rewrite !bind_cons, filter_app, IH. reflexivity.
Qed.

(** X5. The samples of a constructed [ImageFolder] are the files below the
    expanded root that pass the extension filter in force, in the order in
    which the walk comes to them: no file that passes is left out, and
    nothing else is listed. *)
Theorem image_samples_spec {Sample} (os : OS Sample) (root : string)
    (loader : option (string -> result Sample))
    (extensions : option (list string))
    (transform : option (Sample -> result Sample))
    (is_valid_file : option (string -> result bool))
    (img : ImageFolder.t Sample) :
  ImageFolder.__init__ os root loader extensions transform is_valid_file
    = Ok img ->
  ImageFolder.samples img
  = filter (fun p => has_valid_extension p (effective extensions) = true)
           (visited os (expanduser os root))
  /\ forall path, path ∈ ImageFolder.samples img <->
       path ∈ visited os (expanduser os root)
       /\ has_valid_extension path (effective extensions) = true.
Proof.
  rewrite ImageFolder_init_eq. cbv zeta.
  destruct (length _ =? 0)%nat; [discriminate|]. intros [= <-]. simpl.
  rewrite scan_filter_visited. split; [reflexivity|].
  intros path. rewrite list_elem_of_filter. tauto.
Qed.

Lemma image_samples_spec_witness :
  ImageFolder.samples Fixtures.two_classes_images
  = filter (fun p => has_valid_extension p IMG_EXTENSIONS = true)
      (visited (Fixtures.linux Fixtures.two_classes) "/tmp/x").
Proof.
  exact (proj1 (image_samples_spec (Fixtures.linux Fixtures.two_classes)
    "/tmp/x" None None None None Fixtures.two_classes_images
    ltac:(vm_compute; reflexivity))).
Defined.

(** X6. A pair (path, label) is a sample of a constructed [DatasetFolder]
    exactly when the label is the index of some class whose directory
    below the expanded root exists, and the path is a file below that
    directory that passes the extension filter in force. *)
Theorem dataset_samples_spec {Sample} (os : OS Sample) (root : string)
    (loader : option (string -> result Sample))
    (extensions : option (list string))
    (transform : option (Sample -> result Sample))
    (is_valid_file : option (string -> result bool))
    (ds : DatasetFolder.t Sample) :
  DatasetFolder.__init__ os root loader extensions transform is_valid_file
    = Ok ds ->
  forall path idx, (path, idx) ∈ DatasetFolder.samples ds <->
    exists c,
      DatasetFolder.class_to_idx ds !! c = Some idx
      /\ isdir os (posixpath.join (expanduser os root) c) = true
      /\ path ∈ visited os (posixpath.join (expanduser os root) c)
      /\ has_valid_extension path (effective extensions) = true.
Proof.
  rewrite DatasetFolder_init_eq. cbv zeta.
  destruct (DatasetFolder._find_classes os root) as [[classes c2i]|e];
    [|discriminate].
  destruct (length _ =? 0)%nat; [discriminate|]. intros [= <-]. simpl.
  intros path idx. unfold labelled_scan. rewrite list_elem_of_bind. split.
  - intros (c & Hin & _). exists c. unfold class_scan in Hin. cbv zeta in Hin.
    destruct (isdir os _) eqn:Ed; [|inversion Hin].
    destruct (c2i !! c) as [i|] eqn:Ei; [|inversion Hin].
    apply list_elem_of_fmap in Hin as (p & [= -> ->] & Hp).
    rewrite scan_filter_visited in Hp.
    apply list_elem_of_filter in Hp as [Hv Hp]. auto.
  - intros (c & Hidx & Hd & Hp & Hv). exists c.
    split; [|apply elem_of_sorted, elem_of_keys; eauto].
    unfold class_scan. cbv zeta. rewrite Hd, Hidx.
    apply list_elem_of_fmap. exists path. split; [reflexivity|].
    rewrite scan_filter_visited. apply list_elem_of_filter. auto.
Qed.

Lemma dataset_samples_spec_witness :
  ("/tmp/x/class1/c.jpg", 1) ∈ DatasetFolder.samples Fixtures.two_classes_dataset
  <-> exists c,
      DatasetFolder.class_to_idx Fixtures.two_classes_dataset !! c = Some 1
      /\ isdir (Fixtures.linux Fixtures.two_classes)
           (posixpath.join "/tmp/x" c) = true
      /\ "/tmp/x/class1/c.jpg"
           ∈ visited (Fixtures.linux Fixtures.two_classes)
               (posixpath.join "/tmp/x" c)
      /\ has_valid_extension "/tmp/x/class1/c.jpg" IMG_EXTENSIONS = true.
Proof.
  exact (dataset_samples_spec (Fixtures.linux Fixtures.two_classes)
    "/tmp/x" None None None None Fixtures.two_classes_dataset
    ltac:(vm_compute; reflexivity) "/tmp/x/class1/c.jpg" 1).
Defined.

(** X7. Every label of a constructed [DatasetFolder] is a position of the
    class list, and the class at that position is a class whose index in
    [class_to_idx] is the label; so every target is below the number of
    classes. *)
Theorem labels_index_classes {Sample} (os : OS Sample) (root : string)
    (loader : option (string -> result Sample))
    (extensions : option (list string))
    (transform : option (Sample -> result Sample))
    (is_valid_file : option (string -> result bool))
    (ds : DatasetFolder.t Sample) :
  DatasetFolder.__init__ os root loader extensions transform is_valid_file
    = Ok ds ->
  (forall path idx, (path, idx) ∈ DatasetFolder.samples ds ->
     exists c, DatasetFolder.classes ds !! idx = Some c
               /\ DatasetFolder.class_to_idx ds !! c = Some idx)
  /\ Forall (fun t => t < length (DatasetFolder.classes ds))
            (DatasetFolder.targets ds).
Proof.
  rewrite DatasetFolder_init_eq, find_classes_eq. cbv zeta.
  destruct (listed_dirs os root) as [names|e]; [|discriminate].
  destruct (index_dict_spec (sorted names)) as (c2i & Em & Hfrom & _).
  rewrite Em. cbn [mbind result_bind].
  destruct (length _ =? 0)%nat; [discriminate|]. intros [= <-]. simpl.
  assert (Hlab : forall path idx,
    (path, idx) ∈ labelled_scan os (effective extensions) root c2i ->
    exists c, sorted names !! idx = Some c /\ c2i !! c = Some idx).
  { intros path idx Hin. unfold labelled_scan in Hin.
    apply list_elem_of_bind in Hin as (c & Hin & _).
    apply class_scan_label in Hin. simpl in Hin. eauto. }
  split; [exact Hlab|].
  apply Forall_forall. intros t Ht.
  apply list_elem_of_fmap in Ht as ([path idx] & -> & Hin).
  destruct (Hlab path idx Hin) as (c & Hc & _). simpl.
  eapply lookup_lt_Some, Hc.
Qed.

Lemma labels_index_classes_witness :
  Forall (fun t => t < length (DatasetFolder.classes Fixtures.two_classes_dataset))
         (DatasetFolder.targets Fixtures.two_classes_dataset).
Proof.
  exact (proj2 (labels_index_classes (Fixtures.linux Fixtures.two_classes)
    "/tmp/x" None None None None Fixtures.two_classes_dataset
    ltac:(vm_compute; reflexivity))).
Defined.

(** ** Reading the samples *)

(** X8. A negative index counts from the end: with [n] samples and
    [-n <= i < 0], [__getitem__] at [i] gives what it gives at [i + n],
    in both classes; so the index [-1] gives the last sample. *)
Theorem getitem_negative_alias {Sample} (ds : DatasetFolder.t Sample)
    (img : ImageFolder.t Sample) (i : Z) :
  ((- Z.of_nat (DatasetFolder.__len__ ds) <= i < 0)%Z ->
     DatasetFolder.__getitem__ ds i
     = DatasetFolder.__getitem__ ds (i + Z.of_nat (DatasetFolder.__len__ ds)))
  /\ ((- Z.of_nat (ImageFolder.__len__ img) <= i < 0)%Z ->
     ImageFolder.__getitem__ img i
     = ImageFolder.__getitem__ img (i + Z.of_nat (ImageFolder.__len__ img))).
Proof.
  split; intros Hi.
  - unfold DatasetFolder.__getitem__, DatasetFolder.__len__ in *.
    rewrite getitem_negative by exact Hi. reflexivity.
  - unfold ImageFolder.__getitem__, ImageFolder.__len__ in *.
    rewrite getitem_negative by exact Hi. reflexivity.
Qed.

Lemma getitem_negative_alias_witness :
  DatasetFolder.__getitem__ Fixtures.two_classes_dataset (-1)
  = DatasetFolder.__getitem__ Fixtures.two_classes_dataset
      (-1 + Z.of_nat (DatasetFolder.__len__ Fixtures.two_classes_dataset)).
Proof.
  apply (proj1 (getitem_negative_alias Fixtures.two_classes_dataset
                  Fixtures.two_classes_images (-1))).
  vm_compute. split; [discriminate|reflexivity].
Defined.

Lemma mapM_getitem {A B} (l : list A) (G : Z -> result B) (h : A -> B) :
  (forall i x, getitem l i = Ok x -> G i = Ok (h x)) ->
  mapM (fun i : nat => G (Z.of_nat i)) (seq 0 (length l)) = Ok (map h l).
Proof.
  intros HG.
  assert (Hgen : forall suf pre, l = pre ++ suf ->
    mapM (fun i : nat => G (Z.of_nat i)) (seq (length pre) (length suf))
    = Ok (map h suf)).
  { induction suf as [|x suf IH]; intros pre Hl; [reflexivity|].
    cbn [length seq mapM map].
    assert (Hx : getitem l (Z.of_nat (length pre)) = Ok x).
    { destruct (getitem_in_range l (Z.of_nat (length pre))) as (y & Hy & E).
      - subst l. rewrite length_app. simpl. lia.
      - rewrite Nat2Z.id in Hy. subst l.
        rewrite lookup_app_r, Nat.sub_diag in Hy by lia.
        simpl in Hy. injection Hy as <-. exact E. }
    rewrite (HG _ _ Hx). cbn [mbind result_bind].
    specialize (IH (pre ++ [x])). rewrite length_app in IH. simpl in IH.
    rewrite Nat.add_1_r in IH. rewrite IH.
    - reflexivity.
    - rewrite <- app_assoc. exact Hl. }
  apply (Hgen l []). reflexivity.
Qed.

(** X9. Reading a dataset from index [0] to [__len__ - 1] visits every
    sample once, in the order of [samples]: where loading and transforming
    succeeds on every sample path, the reads return the loaded samples
    with their labels (one-element lists for [ImageFolder]), as many as
    [__len__] says, and no read raises [IndexError]. *)
Theorem read_all {Sample} (ds : DatasetFolder.t Sample)
    (img : ImageFolder.t Sample) (out : string -> Sample) :
  ((forall path target, (path, target) ∈ DatasetFolder.samples ds ->
      fetch (DatasetFolder.loader ds) (DatasetFolder.transform ds) path
      = Ok (out path)) ->
   mapM (fun i : nat => DatasetFolder.__getitem__ ds (Z.of_nat i))
        (seq 0 (DatasetFolder.__len__ ds))
   = Ok (map (fun s => (out s.1, s.2)) (DatasetFolder.samples ds)))
  /\ ((forall path, path ∈ ImageFolder.samples img ->
      fetch (ImageFolder.loader img) (ImageFolder.transform img) path
      = Ok (out path)) ->
   mapM (fun i : nat => ImageFolder.__getitem__ img (Z.of_nat i))
        (seq 0 (ImageFolder.__len__ img))
   = Ok (map (fun p => [out p]) (ImageFolder.samples img))).
Proof.
  split; intros Hout.
  - apply (mapM_getitem (DatasetFolder.samples ds)
             (DatasetFolder.__getitem__ ds) (fun s => (out s.1, s.2))).
    intros i [path target] E.
    rewrite (DatasetFolder_getitem_eq ds i path target E).
    rewrite (Hout path target); [reflexivity|].
    unfold getitem in E.
    destruct (_ || _)%Z; [discriminate|].
    destruct (DatasetFolder.samples ds !! _) eqn:El; [|discriminate].
    injection E as ->. eapply list_elem_of_lookup_2, El.
  - apply (mapM_getitem (ImageFolder.samples img)
             (ImageFolder.__getitem__ img) (fun p => [out p])).
    intros i path E.
    rewrite (ImageFolder_getitem_eq img i path E).
    rewrite (Hout path); [reflexivity|].
    unfold getitem in E.
    destruct (_ || _)%Z; [discriminate|].
    destruct (ImageFolder.samples img !! _) eqn:El; [|discriminate].
    injection E as ->. eapply list_elem_of_lookup_2, El.
Qed.

Lemma read_all_witness :
  mapM (fun i : nat =>
          DatasetFolder.__getitem__ Fixtures.two_classes_dataset (Z.of_nat i))
       (seq 0 (DatasetFolder.__len__ Fixtures.two_classes_dataset))
  = Ok [("pixels of /tmp/x/class0/a.jpg", 0);
        ("pixels of /tmp/x/class0/b.png", 0);
        ("pixels of /tmp/x/class1/c.jpg", 1)].
Proof.
  apply (proj1 (read_all Fixtures.two_classes_dataset
                  Fixtures.two_classes_images
                  (fun p => "pixels of " +:+ p))).
  intros path target _. reflexivity.
Defined.

(** ** Edge cases of the extension tuple *)

Lemma keys_empty : keys ∅ = [].
Proof. unfold keys. rewrite map_to_list_empty. reflexivity. Qed.

(** X10. [DatasetFolder] looks for files in the class directories only: on
    a root that lists no directory it raises the "Found 0 files" error,
    whatever files the root itself holds. *)
Theorem no_class_directory {Sample} (os : OS Sample) (root : string)
    (loader : option (string -> result Sample))
    (extensions : option (list string))
    (transform : option (Sample -> result Sample))
    (is_valid_file : option (string -> result bool)) :
  listed_dirs os root = Ok [] ->
  DatasetFolder.__init__ os root loader extensions transform is_valid_file
  = Raise (RuntimeError (found_0_files root (effective extensions))).
Proof.
  intros Hl. rewrite DatasetFolder_init_eq, find_classes_eq, Hl. cbv zeta.
  change (DatasetFolder.index_dict (sorted [])) with (Ok (∅ : gmap string nat)).
  cbn [mbind result_bind]. unfold labelled_scan. rewrite keys_empty.
  reflexivity.
Qed.

Lemma no_class_directory_witness :
  DatasetFolder.__init__
    (Fixtures.linux (TreeFS.Dir [("a.jpg", TreeFS.File)])) "/tmp/x"
    None None None None
  = Raise (RuntimeError (found_0_files "/tmp/x" IMG_EXTENSIONS))
  /\ exists img,
       ImageFolder.__init__
         (Fixtures.linux (TreeFS.Dir [("a.jpg", TreeFS.File)])) "/tmp/x"
         None None None None = Ok img.
Proof.
  split.
  - apply (no_class_directory
             (Fixtures.linux (TreeFS.Dir [("a.jpg", TreeFS.File)])) "/tmp/x").
    reflexivity.
  - eexists. vm_compute. reflexivity.
Defined.

(** X11. With the empty tuple as extensions no file passes, so
    [ImageFolder] always raises the "Found 0 files" error, and
    [DatasetFolder] raises it whenever the listing of the root succeeds;
    the message then names no extension. *)
Theorem empty_extensions {Sample} (os : OS Sample) (root : string)
    (loader : option (string -> result Sample))
    (transform : option (Sample -> result Sample))
    (is_valid_file : option (string -> result bool)) :
  ImageFolder.__init__ os root loader (Some []) transform is_valid_file
  = Raise (RuntimeError (found_0_files root []))
  /\ DatasetFolder.__init__ os root loader (Some []) transform is_valid_file
     = match listed_dirs os root with
       | Ok _ => Raise (RuntimeError (found_0_files root []))
       | Raise e => Raise e
       end
  /\ found_0_files root [] =
       "Found 0 files in subfolders of: " +:+ root +:+ String "010"
         "Supported extensions are: ".
Proof.
  assert (Hscan : forall top, scan os [] top = []).
  { intros top. rewrite scan_filter_visited.
    induction (visited os top) as [|p l IH]; [reflexivity|].
    rewrite filter_cons_False by (simpl; discriminate). exact IH. }
  split; [|split; [|reflexivity]].
  - rewrite ImageFolder_init_eq. cbv zeta. simpl effective.
    rewrite Hscan. reflexivity.
  - rewrite DatasetFolder_init_eq, find_classes_eq. cbv zeta. simpl effective.
    destruct (listed_dirs os root) as [names|e]; [|reflexivity].
    destruct (index_dict_spec (sorted names)) as (c2i & Em & _).
    rewrite Em. cbn [mbind result_bind].
    assert (Hl : labelled_scan os [] root c2i = []).
    { unfold labelled_scan. induction (sorted (keys c2i)) as [|c cs IH];
        [reflexivity|].
      rewrite bind_cons, IH, app_nil_r. unfold class_scan. cbv zeta.
      rewrite Hscan. destruct (isdir os _), (c2i !! c); reflexivity. }
    rewrite Hl. reflexivity.
Qed.

Lemma append_empty_r (s : string) : s +:+ "" = s.
Proof.
  induction s as [|c s IH]; [reflexivity|].
  change (String c s +:+ "") with (String c (s +:+ "")). rewrite IH. reflexivity.
Qed.

(** X12. An extension tuple that holds the empty string lets every file
    pass: the filter answers [true] on every name, and an [ImageFolder]
    built with it lists every file below the expanded root. *)
Theorem empty_string_extension {Sample} (os : OS Sample) (root : string)
    (loader : option (string -> result Sample))
    (exts : list string)
    (transform : option (Sample -> result Sample))
    (is_valid_file : option (string -> result bool)) :
  "" ∈ exts ->
  (forall filename, has_valid_extension filename exts = true)
  /\ (forall img,
        ImageFolder.__init__ os root loader (Some exts) transform is_valid_file
          = Ok img ->
        ImageFolder.samples img = visited os (expanduser os root)).
Proof.
  intros Hin.
  assert (Hall : forall filename, has_valid_extension filename exts = true).
  { intros f. unfold has_valid_extension, endswith. apply existsb_exists.
    exists "". split; [apply list_elem_of_In, Hin|].
    apply str_endswith_spec. exists (lower f).
    symmetry. apply append_empty_r. }
  split; [exact Hall|].
  intros img. rewrite ImageFolder_init_eq. cbv zeta.
  destruct (length _ =? 0)%nat; [discriminate|]. intros [= <-]. simpl.
  rewrite scan_filter_visited.
  induction (visited os (expanduser os root)) as [|p l IH]; [reflexivity|].
  rewrite filter_cons_True by apply Hall. rewrite IH. reflexivity.
Qed.

Lemma empty_string_extension_witness :
  has_valid_extension "notes.txt" [".jpg"; ""] = true.
Proof.
  apply (empty_string_extension (Fixtures.linux Fixtures.only_text) "/tmp/x"
           None [".jpg"; ""] None None).
  right. left.
Defined.

(** ** Case and directories in the extension filter *)

Lemma length_lower (s : string) : String.length (lower s) = String.length s.
Proof. induction s as [|c s IH]; simpl; congruence. Qed.

Lemma lower_append (p q : string) : lower (p +:+ q) = lower p +:+ lower q.
Proof.
  induction p as [|c p IH]; [reflexivity|].
  change (lower (String c p +:+ q)) with (String (lower_char c) (lower (p +:+ q))).
  rewrite IH. reflexivity.
Qed.

Lemma append_assoc (a b c : string) : (a +:+ b) +:+ c = a +:+ (b +:+ c).
Proof.
  induction a as [|x a IH]; [reflexivity|].
  change (String x ((a +:+ b) +:+ c) = String x (a +:+ (b +:+ c))).
  rewrite IH. reflexivity.
Qed.

Lemma append_inj_length (p1 p2 e1 e2 : string) :
  p1 +:+ e1 = p2 +:+ e2 -> String.length p1 = String.length p2 -> e1 = e2.
Proof.
  revert p2. induction p1 as [|c p1 IH]; intros [|c' p2] E Hlen;
    try discriminate Hlen.
  - exact E.
  - injection E as _ E. injection Hlen as Hlen. exact (IH p2 E Hlen).
Qed.

Lemma not_lower_never_matches (f e : string) :
  lower e <> e -> str_endswith (lower f) e = false.
Proof.
  intros Hne. destruct (str_endswith (lower f) e) eqn:E; [|reflexivity].
  exfalso. apply Hne. apply str_endswith_spec in E as [p Hp].
  pose proof (f_equal lower Hp) as Hl.
  rewrite lower_idemp, lower_append, Hp in Hl.
  symmetry. apply (append_inj_length p (lower p) e (lower e) Hl).
  symmetry. apply length_lower.
Qed.

(** X13. The extensions are compared as given with the lower-cased file
    name, so an extension that is not its own lower-case form matches no
    file name at all: taking such extensions out of the tuple changes no
    answer of the filter. *)
Theorem uppercase_extension_dead (filename : string) (exts : list string) :
  (forall e, lower e <> e -> has_valid_extension filename [e] = false)
  /\ has_valid_extension filename exts
     = has_valid_extension filename (filter (fun e => lower e = e) exts).
Proof.
  split.
  - intros e Hne. unfold has_valid_extension, endswith. simpl.
    rewrite (not_lower_never_matches filename e Hne). reflexivity.
  - unfold has_valid_extension, endswith.
    induction exts as [|e exts IH]; [reflexivity|].
    destruct (decide (lower e = e)) as [He|Hne].
    + rewrite filter_cons_True by exact He. simpl. rewrite IH. reflexivity.
    + rewrite filter_cons_False by exact Hne. simpl.
      rewrite (not_lower_never_matches filename e Hne). exact IH.
Qed.

Lemma join_suffix (a b : string) :
  posixpath.join a b = b \/ exists p, posixpath.join a b = p +:+ "/" +:+ b.
Proof.
  unfold posixpath.join.
  destruct (startswith b "/"); [left; reflexivity|].
  destruct (String.eqb a "") eqn:Ea.
  - apply String.eqb_eq in Ea. subst a. left. reflexivity.
  - destruct (str_endswith a "/") eqn:Es; simpl.
    + apply str_endswith_spec in Es as [p ->]. right. exists p.
      apply append_assoc.
    + right. exists a. reflexivity.
Qed.

Lemma has_slash_app (p q : string) :
  has_slash q = true -> has_slash (p +:+ q) = true.
Proof.
  intros Hq. induction p as [|c p IH]; [exact Hq|].
  change (has_slash (String c p +:+ q))
    with (Ascii.eqb c "/" || has_slash (p +:+ q)).
  rewrite IH. apply orb_true_r.
Qed.

Lemma suffix_after_slash (p f q e : string) :
  p +:+ "/" +:+ f = q +:+ e -> has_slash e = false ->
  exists q', f = q' +:+ e.
Proof.
  intros E He. revert q E. induction p as [|c p IH]; intros [|c' q] E.
  - change (String "/" f = e) in E. subst e. discriminate He.
  - change (String "/" f = String c' (q +:+ e)) in E.
    injection E as _ E. eauto.
  - change (String c (p +:+ "/" +:+ f) = e) in E. subst e.
    change (has_slash (String c (p +:+ "/" +:+ f)))
      with (Ascii.eqb c "/" || has_slash (p +:+ "/" +:+ f)) in He.
    rewrite (has_slash_app p ("/" +:+ f) eq_refl), orb_true_r in He.
    discriminate He.
  - change (String c (p +:+ "/" +:+ f) = String c' (q +:+ e)) in E.
    injection E as _ E. exact (IH q E).
Qed.

(** X14. Where no extension holds a slash, as with the built-in tuple,
    testing the full path is testing the file name: the directories on
    the way to a file never decide whether it is collected. *)
Theorem filter_sees_file_name (exts : list string) (root fname : string) :
  Forall (fun e => has_slash e = false) exts ->
  has_valid_extension (posixpath.join root fname) exts
  = has_valid_extension fname exts.
Proof.
  intros Hns. apply Bool.eq_iff_eq_true.
  unfold has_valid_extension, endswith. rewrite !existsb_exists.
  split; intros (e & He & Hs); exists e; (split; [exact He|]);
    apply str_endswith_spec in Hs as [q Hq]; apply str_endswith_spec.
  - destruct (join_suffix root fname) as [Hj|[p Hp]].
    + rewrite Hj in Hq. eauto.
    + rewrite Hp, !lower_append in Hq.
      apply (suffix_after_slash (lower p) (lower fname) q e Hq).
      rewrite Forall_forall in Hns. apply Hns, list_elem_of_In, He.
  - destruct (join_suffix root fname) as [Hj|[p Hp]].
    + rewrite Hj. eauto.
    + rewrite Hp, !lower_append, Hq. exists (lower p +:+ "/" +:+ q).
      rewrite !append_assoc. reflexivity.
Qed.

Lemma filter_sees_file_name_witness :
  has_valid_extension (posixpath.join "/tmp/x.png/d" "a.txt") IMG_EXTENSIONS
  = has_valid_extension "a.txt" IMG_EXTENSIONS.
Proof.
  apply filter_sees_file_name.
  repeat constructor.
Defined.

(** ** Classes and extensions *)

(** X15. The classes do not depend on the files: two [DatasetFolder]
    objects built on one root, whatever their extensions, loaders and
    transforms, have the same classes and the same [class_to_idx], and a
    class directory keeps its index even when none of its files passes
    the filter. *)
Theorem classes_independent_of_filter {Sample} (os : OS Sample) (root : string)
    (loader1 loader2 : option (string -> result Sample))
    (extensions1 extensions2 : option (list string))
    (transform1 transform2 : option (Sample -> result Sample))
    (pred1 pred2 : option (string -> result bool))
    (ds1 ds2 : DatasetFolder.t Sample) :
  DatasetFolder.__init__ os root loader1 extensions1 transform1 pred1
    = Ok ds1 ->
  DatasetFolder.__init__ os root loader2 extensions2 transform2 pred2
    = Ok ds2 ->
  DatasetFolder.classes ds1 = DatasetFolder.classes ds2
  /\ DatasetFolder.class_to_idx ds1 = DatasetFolder.class_to_idx ds2
  /\ (forall c, c ∈ DatasetFolder.classes ds1 <-> is_subdir os root c).
Proof.
  rewrite !DatasetFolder_init_eq, find_classes_eq. cbv zeta.
  destruct (listed_dirs os root) as [names|e] eqn:Hl; [|discriminate].
  destruct (DatasetFolder.index_dict (sorted names)) as [c2i|e];
    [|discriminate].
  cbn [mbind result_bind].
  destruct (length _ =? 0)%nat; [discriminate|]. intros [= <-].
  destruct (length _ =? 0)%nat; [discriminate|]. intros [= <-]. simpl.
  split; [reflexivity|]. split; [reflexivity|].
  intros c. rewrite elem_of_sorted. apply (listed_dirs_spec os root names Hl).
Qed.

Lemma classes_independent_of_filter_witness :
  DatasetFolder.classes Fixtures.two_classes_dataset = ["class0"; "class1"].
Proof.
  pose (png := {|
    DatasetFolder.root := "/tmp/x";
    DatasetFolder.transform := None;
    DatasetFolder.loader := cv2_loader (Fixtures.linux Fixtures.two_classes);
    DatasetFolder.extensions := [".png"];
    DatasetFolder.classes := ["class0"; "class1"];
    DatasetFolder.class_to_idx := <["class1" := 1]> (<["class0" := 0]> ∅);
    DatasetFolder.samples := [("/tmp/x/class0/b.png", 0)];
    DatasetFolder.targets := [0] |}).
  exact (proj1 (classes_independent_of_filter
    (Fixtures.linux Fixtures.two_classes) "/tmp/x"
    None None None (Some [".png"]) None None None None
    Fixtures.two_classes_dataset png
    ltac:(vm_compute; reflexivity) ltac:(vm_compute; reflexivity))).
Defined.

Lemma has_valid_extension_mono (f : string) (exts exts' : list string) :
  (forall e, e ∈ exts -> e ∈ exts') ->
  has_valid_extension f exts = true -> has_valid_extension f exts' = true.
Proof.
  intros Hsub. unfold has_valid_extension, endswith. rewrite !existsb_exists.
  intros (e & He & Hs). exists e. split; [|exact Hs].
  apply list_elem_of_In, Hsub, list_elem_of_In, He.
Qed.

Lemma filter_sublist_mono {A} (P Q : A -> Prop)
    `{forall x, Decision (P x), forall x, Decision (Q x)} (l : list A) :
  (forall x, P x -> Q x) -> filter P l `sublist_of` filter Q l.
Proof.
  intros HPQ. induction l as [|x l IH]; [constructor|].
  destruct (decide (P x)) as [HP|HP].
  - rewrite (filter_cons_True P) by exact HP.
    rewrite (filter_cons_True Q) by (apply HPQ, HP).
    constructor. exact IH.
  - rewrite (filter_cons_False P) by exact HP.
    destruct (decide (Q x)) as [HQ|HQ].
    + rewrite (filter_cons_True Q) by exact HQ. constructor. exact IH.
    + rewrite (filter_cons_False Q) by exact HQ. exact IH.
Qed.

(** X16. More extensions never lose a sample: if every extension of one
    tuple is in another and [ImageFolder] can be built with the first, it
    can be built with the second, and the samples of the first are a
    sublist of the samples of the second, in the same order. *)
Theorem more_extensions_more_samples {Sample} (os : OS Sample) (root : string)
    (loader : option (string -> result Sample))
    (exts exts' : list string)
    (transform : option (Sample -> result Sample))
    (is_valid_file : option (string -> result bool))
    (img : ImageFolder.t Sample) :
  (forall e, e ∈ exts -> e ∈ exts') ->
  ImageFolder.__init__ os root loader (Some exts) transform is_valid_file
    = Ok img ->
  exists img',
    ImageFolder.__init__ os root loader (Some exts') transform is_valid_file
      = Ok img'
    /\ ImageFolder.samples img `sublist_of` ImageFolder.samples img'.
Proof.
  intros Hsub. rewrite !ImageFolder_init_eq. cbv zeta. simpl effective.
  assert (Hs : scan os exts (expanduser os root)
               `sublist_of` scan os exts' (expanduser os root)).
  { rewrite !scan_filter_visited. apply filter_sublist_mono.
    intros p. apply has_valid_extension_mono, Hsub. }
  destruct (scan os exts (expanduser os root)) as [|s l] eqn:E; simpl;
    [discriminate|].
  intros [= <-]. simpl.
  destruct (scan os exts' (expanduser os root)) as [|s' l'] eqn:E'.
  - apply sublist_nil_r in Hs. discriminate Hs.
  - simpl. eexists. split; [reflexivity|]. simpl. exact Hs.
Qed.

Lemma more_extensions_more_samples_witness :
  exists img',
    ImageFolder.__init__ (Fixtures.linux Fixtures.two_classes) "/tmp/x"
      None (Some [".png"; ".jpg"]) None None = Ok img'
    /\ ["/tmp/x/class0/b.png"] `sublist_of` ImageFolder.samples img'.
Proof.
  pose (png := {|
    ImageFolder.root := "/tmp/x";
    ImageFolder.loader := cv2_loader (Fixtures.linux Fixtures.two_classes);
    ImageFolder.extensions := [".png"];
    ImageFolder.samples := ["/tmp/x/class0/b.png"];
    ImageFolder.transform := None |}).
  apply (more_extensions_more_samples (Fixtures.linux Fixtures.two_classes)
           "/tmp/x" None [".png"] [".png"; ".jpg"] None None png).
  - intros e He. apply list_elem_of_singleton in He as ->. left.
  - vm_compute. reflexivity.
Defined.

(** ** Extensions together with a predicate *)

Lemma labelled_scan_accepted {Sample} (os : OS Sample) (exts : list string)
    (dir : string) (class_to_idx : gmap string nat) :
  labelled_scan os exts dir class_to_idx = accepted os exts dir class_to_idx.
Proof.
  pose proof (make_dataset_ext os dir class_to_idx exts None) as Hext.
  rewrite make_dataset_flat in Hext.
  rewrite (keep_loop (fun x => Ok (has_valid_extension x exts))
             (fun x => has_valid_extension x exts)) in Hext.
  - injection Hext as Hext. symmetry. exact Hext.
  - intros it _. reflexivity.
  - intros [path target] Hin. apply elem_of_candidates in Hin as [Hidx _].
    exact Hidx.
Qed.

Lemma elem_of_accepted {Sample} (os : OS Sample) (exts : list string)
    (dir : string) (class_to_idx : gmap string nat) (path : string) (idx : nat) :
  (path, idx) ∈ accepted os exts dir class_to_idx <->
  has_valid_extension path exts = true
  /\ exists target, (path, target) ∈ candidates os dir class_to_idx
                    /\ class_to_idx !! target = Some idx.
Proof.
  unfold accepted. rewrite list_elem_of_omap. split.
  - intros ([path' target] & Hin & Hsome). simpl in Hsome.
    destruct (has_valid_extension path' exts) eqn:Ev; [|discriminate].
    destruct (class_to_idx !! target) as [idx'|] eqn:Ei; [|discriminate].
    injection Hsome as <- <-. eauto.
  - intros (Ev & target & Hin & Hidx). exists (path, target).
    split; [exact Hin|]. simpl. rewrite Ev, Hidx. reflexivity.
Qed.

(** C1. When the caller gives an extension tuple and a validity predicate
    together, the extension filter decides and the predicate is left
    aside. [make_dataset] returns the candidate files that have one of the
    extensions, each with the index of its class, in walk order: a file
    with one of the extensions is collected and no other file is.
    [ImageFolder] holds the files below the expanded root that have one of
    the extensions, and [DatasetFolder] holds what [make_dataset] collects
    for the classes found; either raises the "Found 0 files" error only
    when that collection is empty. Each outcome is the outcome of the same
    call without the predicate. *)
Theorem extensions_override_predicate {Sample} (os : OS Sample) (root : string)
    (class_to_idx : gmap string nat)
    (loader : option (string -> result Sample))
    (exts : list string)
    (transform : option (Sample -> result Sample))
    (pred : string -> result bool) :
  let files := filter (fun p => has_valid_extension p exts = true)
                      (visited os (expanduser os root)) in
  make_dataset os root class_to_idx (Some exts) (Some pred)
    = Ok (accepted os exts root class_to_idx)
  /\ make_dataset os root class_to_idx (Some exts) None
    = Ok (accepted os exts root class_to_idx)
  /\ (forall path idx, (path, idx) ∈ accepted os exts root class_to_idx <->
        has_valid_extension path exts = true
        /\ exists target, (path, target) ∈ candidates os root class_to_idx
                          /\ class_to_idx !! target = Some idx)
  /\ ImageFolder.__init__ os root loader (Some exts) transform (Some pred)
    = (if (length files =? 0)%nat then
         Raise (RuntimeError (found_0_files root exts))
       else
         Ok {| ImageFolder.root := root;
               ImageFolder.loader :=
                 match loader with None => cv2_loader os | Some l => l end;
               ImageFolder.extensions := exts;
               ImageFolder.samples := files;
               ImageFolder.transform := transform |})
  /\ ImageFolder.__init__ os root loader (Some exts) transform None
    = ImageFolder.__init__ os root loader (Some exts) transform (Some pred)
  /\ DatasetFolder.__init__ os root loader (Some exts) transform (Some pred)
    = match DatasetFolder._find_classes os root with
      | Raise e => Raise e
      | Ok (classes, c2i) =>
          let samples := accepted os exts root c2i in
          if (length samples =? 0)%nat then
            Raise (RuntimeError (found_0_files root exts))
          else
            Ok {| DatasetFolder.root := root;
                  DatasetFolder.transform := transform;
                  DatasetFolder.loader :=
                    match loader with None => cv2_loader os | Some l => l end;
                  DatasetFolder.extensions := exts;
                  DatasetFolder.classes := classes;
                  DatasetFolder.class_to_idx := c2i;
                  DatasetFolder.samples := samples;
                  DatasetFolder.targets := map snd samples |}
      end
  /\ DatasetFolder.__init__ os root loader (Some exts) transform None
    = DatasetFolder.__init__ os root loader (Some exts) transform (Some pred).
Proof.
  intros files. subst files.
  split; [rewrite make_dataset_ext; f_equal; apply labelled_scan_accepted|].
  split; [rewrite make_dataset_ext; f_equal; apply labelled_scan_accepted|].
  split; [intros path idx; apply elem_of_accepted|].
  split.
  { rewrite ImageFolder_init_eq. cbv zeta. simpl effective.
    rewrite scan_filter_visited. reflexivity. }
  split; [rewrite !ImageFolder_init_eq; reflexivity|].
  split.
  { rewrite DatasetFolder_init_eq. cbv zeta. simpl effective.
    destruct (DatasetFolder._find_classes os root) as [[classes c2i]|e];
      [|reflexivity].
    rewrite labelled_scan_accepted. reflexivity. }
  rewrite !DatasetFolder_init_eq. reflexivity.
Qed.

Lemma extensions_override_predicate_witness :
  make_dataset (Fixtures.linux Fixtures.two_classes) "/tmp/x"
    (<["class1" := 1]> (<["class0" := 0]> ∅)) (Some [".jpg"; ".png"])
    (Some (fun _ => Ok false))
  = Ok [("/tmp/x/class0/a.jpg", 0); ("/tmp/x/class0/b.png", 0);
        ("/tmp/x/class1/c.jpg", 1)]
  /\ ImageFolder.__init__ (Fixtures.linux Fixtures.two_classes) "/tmp/x"
       None (Some [".png"]) None (Some (fun _ => Raise (Raised "corrupt")))
     = ImageFolder.__init__ (Fixtures.linux Fixtures.two_classes) "/tmp/x"
       None (Some [".png"]) None None.
Proof.
  split.
  - pose proof (extensions_override_predicate
      (Fixtures.linux Fixtures.two_classes) "/tmp/x"
      (<["class1" := 1]> (<["class0" := 0]> ∅)) None [".jpg"; ".png"] None
      (fun _ => Ok false)) as H.
    cbv zeta in H. destruct H as [H _]. rewrite H. vm_compute. reflexivity.
  - pose proof (extensions_override_predicate
      (Fixtures.linux Fixtures.two_classes) "/tmp/x" ∅ None [".png"] None
      (fun _ => Raise (Raised "corrupt"))) as H.
    cbv zeta in H. destruct H as (_ & _ & _ & _ & H & _).
    symmetry. exact H.
Defined.

(** ** A root under the home directory *)

(** C4, where the code departs from it. The root [~/x] names the user's
    directory [/home/u/x], which holds text files only, so the scan of the
    expanded root finds no file with one of the extensions. [ImageFolder]
    raises the "Found 0 files" error, and so does [DatasetFolder] on the
    expanded path; [make_dataset] expands the root too. But
    [DatasetFolder.__init__] lists the classes of the root as given,
    before any expansion, and the error of that listing is what it
    raises. *)
Lemma dataset_home_root_not_expanded :
  expanduser Fixtures.home_text "~/x" = "/home/u/x"
  /\ ~ has_match Fixtures.home_text IMG_EXTENSIONS
         (expanduser Fixtures.home_text "~/x")
  /\ ~ class_has_match Fixtures.home_text IMG_EXTENSIONS "~/x"
  /\ make_dataset Fixtures.home_text "~/x" (<["docs" := 0]> ∅)
       (Some IMG_EXTENSIONS) None = Ok []
  /\ ImageFolder.__init__ Fixtures.home_text "~/x" None None None None
     = Raise (RuntimeError (found_0_files "~/x" IMG_EXTENSIONS))
  /\ DatasetFolder.__init__ Fixtures.home_text "/home/u/x" None None None None
     = Raise (RuntimeError (found_0_files "/home/u/x" IMG_EXTENSIONS))
  /\ DatasetFolder.__init__ Fixtures.home_text "~/x" None None None None
     = Raise (OSError "~/x")
  /\ DatasetFolder.__init__ Fixtures.home_text "~/x" None None None None
     <> Raise (RuntimeError (found_0_files "~/x" IMG_EXTENSIONS)).
Proof.
  split; [reflexivity|]. split.
  { intros Hm. apply scan_match in Hm. apply Hm. vm_compute. reflexivity. }
  split.
  { intros (c & Hc & _). unfold is_subdir in Hc. simpl in Hc.
    destruct Hc as (entries & Hs & _). vm_compute in Hs. discriminate Hs. }
  split; [vm_compute; reflexivity|]. split; [vm_compute; reflexivity|].
  split; [vm_compute; reflexivity|]. split; [vm_compute; reflexivity|].
  vm_compute. discriminate.
Qed.
